(** * NuloAfrica backend: the rental application lifecycle

    A shallow embedding of the tenant profile-completion gate
    ([app/routes/tenants.py]), of registration ([app/routes/auth.py]) and of
    the application / escrow handlers ([app/routes/applications.py]),
    followed by the properties proved about them.

    The handlers talk to a remote store through a query-builder client
    ([supabase_admin.table(..).select/insert/update(..).eq(..).execute()]).
    The store is modelled as a record of finite maps from primary key to
    row; every [.execute()] is one call that may raise, which an explicit
    schedule of faults decides. *)

From Stdlib Require Import ZArith QArith Lia.
From stdpp Require Import gmap strings list fin_maps pretty.

Set Warnings "-register-all".
Close Scope Q_scope.
Local Open Scope Z_scope.

(** ** Python values

    Rows and request payloads are [dict]s of JSON-like values. Floats are
    only ever stored, copied and tested for truth, so a rational stands for
    them. *)

Inductive value :=
| VNone
| VBool (b : bool)
| VInt (n : Z)
| VFloat (q : Q)
| VStr (s : string)
| VList (l : list value)
| VDict (d : gmap string value).

Abbreviation dict := (gmap string value).

(** [bool(v)] *)
Definition truthy (v : value) : bool :=
  match v with
  | VNone => false
  | VBool b => b
  | VInt n => negb (n =? 0)
  | VFloat q => negb (Qeq_bool q (0 # 1))
  | VStr s => negb (String.eqb s "")
  | VList l => negb (bool_decide (length l = 0%nat))
  | VDict d => negb (bool_decide (size d = 0%nat))
  end.

(** [a and b] yields an operand, not a boolean. *)
Definition py_and (a b : value) : value := if truthy a then b else a.

(** [d.get(k)] and [d.get(k, dflt)] *)
Definition get (d : dict) (k : string) : value := default VNone (d !! k).
Definition get_default (d : dict) (k : string) (dflt : value) : value :=
  default dflt (d !! k).

(** ** Profile completion ([calculate_profile_completion], tenants.py) *)

Definition calculate_profile_completion (tenant_data : dict) : Z :=
  let completion := 0 in
  (* Step 1: Preferences (33%) *)
  let has_preferences :=
    py_and (get tenant_data "budget") (get tenant_data "preferred_location") in
  let completion := if truthy has_preferences then 33 else completion in
  (* Step 2: Documents (34% more = 67% total) *)
  let documents := get_default tenant_data "documents" (VDict ∅) in
  let completion :=
    match documents with
    | VDict documents =>
        let has_documents :=
          py_and (get documents "id_document") (get documents "proof_of_income") in
        if truthy has_documents then 67 else completion
    | _ => completion
    end in
  (* Step 3: Completed (33% more = 100% total) *)
  let completion :=
    if truthy (get tenant_data "onboarding_completed") then 100 else completion in
  completion.

(** A field is present when the handlers do not report it missing:
    [get_profile_status] lists a field under [missing_fields] exactly when
    [not tenant_data.get(field)]. *)
Definition present (d : dict) (k : string) : bool := truthy (get d k).

Definition step1 (p : dict) : bool := present p "budget" && present p "preferred_location".

Definition step2 (p : dict) : bool :=
  match p !! "documents" with
  | Some (VDict docs) => present docs "id_document" && present docs "proof_of_income"
  | _ => false
  end.

Definition step3 (p : dict) : bool := present p "onboarding_completed".

(** The highest wizard step whose fields are complete. *)
Definition step_reached (p : dict) : nat :=
  if step3 p then 3 else if step2 p then 2 else if step1 p then 1 else 0.

Definition step_floor (n : nat) : Z :=
  match n with
  | O => 0
  | 1%nat => 33
  | 2%nat => 67
  | _ => 100
  end.

(** The tenant row written at registration. *)
Definition registered_tenant (user_id : string) : dict :=
  <["id" := VStr user_id]>
    (<["profile_completion" := VInt 0]>
       (<["onboarding_completed" := VBool false]> ∅)).

(** ** Rows of the store

    The primary key [id] of a row is its key in the table. *)

Record user := User {
  usr_email : string;
  usr_phone_number : option string;
  usr_full_name : string;
  usr_user_type : string;
  usr_trust_score : Z;
  usr_verification_status : string }.

Record property := Property {
  prop_landlord_id : string;
  prop_title : string;
  prop_rent_amount : Q;
  prop_status : string;
  prop_application_count : Z }.

Record application := Application {
  app_tenant_id : string;
  app_property_id : string;
  app_status : string;
  app_message : option string;
  app_proposed_move_in_date : option string;
  app_documents : dict;
  app_rejection_reason : option string;
  app_reason_code : option string;
  app_reviewed_at : option string;
  app_reviewed_by : option string }.

Record transaction := Transaction {
  txn_application_id : string;
  txn_tenant_id : string;
  txn_landlord_id : string;
  txn_property_id : string;
  txn_amount : Q;
  txn_currency : string;
  txn_status : string;
  txn_payment_gateway : string;
  txn_transaction_type : string;
  txn_held_at : option string;
  txn_released_at : option string;
  txn_refunded_at : option string;
  txn_notes : string }.

Record database := Database {
  users : gmap string user;
  tenants : gmap string dict;
  landlords : gmap string dict;
  properties : gmap string property;
  applications : gmap string application;
  transactions : gmap string transaction }.

Definition empty_database : database := Database ∅ ∅ ∅ ∅ ∅ ∅.

Definition set_users (f : gmap string user → gmap string user) (d : database) :=
  Database (f (users d)) (tenants d) (landlords d) (properties d)
           (applications d) (transactions d).
Definition set_tenants (f : gmap string dict → gmap string dict) (d : database) :=
  Database (users d) (f (tenants d)) (landlords d) (properties d)
           (applications d) (transactions d).
Definition set_landlords (f : gmap string dict → gmap string dict) (d : database) :=
  Database (users d) (tenants d) (f (landlords d)) (properties d)
           (applications d) (transactions d).
Definition set_properties (f : gmap string property → gmap string property)
    (d : database) :=
  Database (users d) (tenants d) (landlords d) (f (properties d))
           (applications d) (transactions d).
Definition set_applications (f : gmap string application → gmap string application)
    (d : database) :=
  Database (users d) (tenants d) (landlords d) (properties d)
           (f (applications d)) (transactions d).
Definition set_transactions (f : gmap string transaction → gmap string transaction)
    (d : database) :=
  Database (users d) (tenants d) (landlords d) (properties d)
           (applications d) (f (transactions d)).

(** ** Exceptions and the handler monad *)

Inductive exn :=
| HTTPException (status_code : Z) (detail : string)
| Exception (msg : string).

Inductive outcome (A : Type) :=
| Return (a : A)
| Raise (e : exn).
Arguments Return {A} a.
Arguments Raise {A} e.

(** What a handler runs against: the store, the faults of the coming store
    calls in order ([Some msg]: the call raises an exception whose text is
    [msg] and changes nothing; [None], or a schedule that has run out: the
    call goes through), and the clock. *)
Record world := World {
  db : database;
  faults : list (option string);
  clock : nat }.

Definition M (A : Type) : Type := world → outcome A * world.

Definition ret {A} (a : A) : M A := λ w, (Return a, w).
Definition raise {A} (e : exn) : M A := λ w, (Raise e, w).
Definition bind {A B} (c : M A) (k : A → M B) : M B := λ w,
  match c w with
  | (Return a, w') => k a w'
  | (Raise e, w') => (Raise e, w')
  end.
Definition lift {A} (o : outcome A) : M A := λ w, (o, w).

Notation "'do' x <- c ; k" := (bind c (λ x, k))
  (at level 10, x name, c at level 100, k at level 200, only parsing).

(** [q.execute()] *)
Definition execute {A} (q : database → outcome A * database) : M A := λ w,
  match faults w with
  | Some msg :: rest => (Raise (Exception msg), World (db w) rest (clock w))
  | _ => let '(r, d) := q (db w) in (r, World d (tail (faults w)) (clock w))
  end.

(** [datetime.now().isoformat()]: the clock is a counter that every reading
    advances; the text of a reading is its numeral. *)
Definition isoformat (t : nat) : string := pretty t.
Definition datetime_now : M string := λ w,
  (Return (isoformat (clock w)), World (db w) (faults w) (S (clock w))).

(** [try: body  except HTTPException: raise
    except Exception as e: raise HTTPException(code, f"{prefix}{e}")] *)
Definition try_except {A} (code : Z) (prefix : string) (body : M A) : M A := λ w,
  match body w with
  | (Raise (Exception msg), w') => (Raise (HTTPException code (prefix +:+ msg)), w')
  | r => r
  end.

(** ** Queries *)

(** [select(cols)] keeps the named columns of a row; a NULL column reads
    [None]. *)
Definition project (cols : list string) (row : dict) : dict :=
  list_to_map ((λ c, (c, get row c)) <$> cols).

(** [table(t).select("*").eq("id", id).single()]: the row, or no data. *)
Definition select_single {R} (tbl : database → gmap string R) (id : string)
  : database → outcome (option R) * database :=
  λ d, (Return (tbl d !! id), d).

(** [table("tenants").select(cols).eq("id", id).single()] *)
Definition select_tenant_cols (cols : list string) (id : string)
  : database → outcome (option dict) * database :=
  λ d, (Return (project cols <$> tenants d !! id), d).

(** [table("applications").select("id").eq("tenant_id", t).eq("property_id", p)] *)
Definition applications_of (tenant_id property_id : string) (d : database)
  : gmap string application :=
  filter (λ kv, app_tenant_id kv.2 = tenant_id ∧ app_property_id kv.2 = property_id)
         (applications d).

Definition select_applications_of (tenant_id property_id : string)
  : database → outcome (list string) * database :=
  λ d, (Return (map_to_list (applications_of tenant_id property_id d)).*1, d).

(** [table("applications").select("*, property:properties(..)").eq("id", id).single()]:
    the application with the property its [property_id] refers to embedded,
    [None] when there is no such property. *)
Definition select_application_with_property (id : string)
  : database → outcome (option (application * option property)) * database :=
  λ d, (Return ((λ a, (a, properties d !! app_property_id a)) <$> applications d !! id), d).

(** [insert(row)] into a table whose key the store generates: the new row
    gets a key not in use and is returned. *)
Definition insert_application (row : application)
  : database → outcome (list (string * application)) * database :=
  λ d, let id := fresh (dom (applications d)) in
       (Return [(id, row)], set_applications (insert id row) d).

Definition insert_transaction (row : transaction)
  : database → outcome (list (string * transaction)) * database :=
  λ d, let id := fresh (dom (transactions d)) in
       (Return [(id, row)], set_transactions (insert id row) d).

(** [insert(row)] with the key given by the caller: a key already in use
    violates the primary key and the call raises. *)
Definition duplicate_key : string := "duplicate key value violates unique constraint".

Definition insert_keyed {R} (tbl : database → gmap string R)
    (set : (gmap string R → gmap string R) → database → database)
    (id : string) (row : R)
  : database → outcome (list (string * R)) * database :=
  λ d, match tbl d !! id with
       | Some _ => (Raise (Exception duplicate_key), d)
       | None => (Return [(id, row)], set (insert id row) d)
       end.

(** [update(changes).eq("id", id)]: the rows changed are returned. *)
Definition update_by_id {R} (tbl : database → gmap string R)
    (set : (gmap string R → gmap string R) → database → database)
    (id : string) (change : R → R)
  : database → outcome (list (string * R)) * database :=
  λ d, (Return (option_list ((λ r, (id, change r)) <$> tbl d !! id)),
        set (alter change id) d).

(** [table("transactions").update(changes).eq("application_id", id)] *)
Definition update_transactions_of (application_id : string)
    (change : transaction → transaction)
  : database → outcome unit * database :=
  λ d, (Return (),
        set_transactions
          (fmap (λ t, if decide (txn_application_id t = application_id)
                      then change t else t)) d).

(** ** Request payloads and the caller *)

(** [current_user], as the auth middleware hands it to a handler. *)
Record identity := Identity {
  cu_id : string;
  cu_user_type : string }.

Record ApplicationCreate := {
  ac_property_id : string;
  ac_message : option string;
  ac_proposed_move_in_date : option string }.

Record ApplicationReject := {
  ar_reason : string;
  ar_reason_code : string }.

Record CompleteProfileData := {
  cp_budget : Q;
  cp_preferred_location : string;
  cp_bedrooms : Z;
  cp_move_in_date : option string;
  cp_id_document_url : string;
  cp_proof_of_income_url : string;
  cp_reference1_email : option string;
  cp_reference2_email : option string;
  cp_join_rent_credit : bool }.

Record UserRegister := {
  ur_email : string;
  ur_password : string;
  ur_full_name : string;
  ur_user_type : string;
  ur_phone_number : option string }.

(** What [supabase.auth.sign_up] answered: the new user's id, and the access
    token of the session when one was opened. *)
Record SignUp := {
  su_user : option string;
  su_session : option string }.

Definition opt_str (o : option string) : value :=
  match o with Some s => VStr s | None => VNone end.

(** [v < n] for an int [n]; comparing [None], a string, a list or a dict
    with an int raises [TypeError]. *)
Definition py_lt (v : value) (n : Z) : outcome bool :=
  match v with
  | VInt a => Return (a <? n)
  | VBool b => Return ((if b then 1 else 0) <? n)
  | VFloat q => Return (negb (Qle_bool (inject_Z n) q))
  | _ => Raise (Exception "'<' not supported between these instances")
  end.

(** ** Application handlers (applications.py) *)

Definition approved (reviewed_at landlord_id : string) (a : application) : application :=
  Application (app_tenant_id a) (app_property_id a) "approved" (app_message a)
    (app_proposed_move_in_date a) (app_documents a)
    (app_rejection_reason a) (app_reason_code a)
    (Some reviewed_at) (Some landlord_id).

Definition rejected (reason reason_code reviewed_at landlord_id : string)
    (a : application) : application :=
  Application (app_tenant_id a) (app_property_id a) "rejected" (app_message a)
    (app_proposed_move_in_date a) (app_documents a)
    (Some reason) (Some reason_code)
    (Some reviewed_at) (Some landlord_id).

Definition released (released_at : string) (t : transaction) : transaction :=
  Transaction (txn_application_id t) (txn_tenant_id t) (txn_landlord_id t)
    (txn_property_id t) (txn_amount t) (txn_currency t) "released"
    (txn_payment_gateway t) (txn_transaction_type t) (txn_held_at t)
    (Some released_at) (txn_refunded_at t) (txn_notes t).

Definition refunded (refunded_at : string) (t : transaction) : transaction :=
  Transaction (txn_application_id t) (txn_tenant_id t) (txn_landlord_id t)
    (txn_property_id t) (txn_amount t) (txn_currency t) "refunded"
    (txn_payment_gateway t) (txn_transaction_type t) (txn_held_at t)
    (txn_released_at t) (Some refunded_at) (txn_notes t).

Definition rented (p : property) : property :=
  Property (prop_landlord_id p) (prop_title p) (prop_rent_amount p) "rented"
    (prop_application_count p).

Definition with_application_count (n : Z) (p : property) : property :=
  Property (prop_landlord_id p) (prop_title p) (prop_rent_amount p) (prop_status p) n.

Definition create_application (application_data : ApplicationCreate)
    (current_user : identity)
  : M ((string * application) * option (string * transaction)) :=
  try_except 400 "Failed to submit application: " (
    let tenant_id := cu_id current_user in
    (* Check tenant profile completion *)
    do tenant_profile <-
      execute (select_tenant_cols ["profile_completion"] tenant_id);
    do incomplete <- lift
      match tenant_profile with
      | None => Return true
      | Some data =>
          if negb (truthy (VDict data)) then Return true
          else py_lt (get_default data "profile_completion" (VInt 0)) 100
      end;
    if incomplete : bool then
      raise (HTTPException 403
        "You must complete your profile (100%) before applying for properties")
    else
    (* Check if property exists *)
    do property_check <-
      execute (select_single properties (ac_property_id application_data));
    match property_check with
    | None => raise (HTTPException 404 "Property not found")
    | Some property_data =>
    (* Check for existing application *)
    do existing_app <-
      execute (select_applications_of tenant_id (ac_property_id application_data));
    match existing_app with
    | _ :: _ =>
        raise (HTTPException 400 "You have already applied for this property")
    | [] =>
    (* Create application *)
    let app_dict :=
      Application tenant_id (ac_property_id application_data) "submitted"
        (ac_message application_data) (ac_proposed_move_in_date application_data)
        ∅ None None None None in
    do app_response <- execute (insert_application app_dict);
    match app_response with
    | [] => raise (HTTPException 400 "Failed to create application")
    | application :: _ =>
    (* Create mock escrow transaction *)
    do held_at <- datetime_now;
    let transaction_dict :=
      Transaction application.1 tenant_id (prop_landlord_id property_data)
        (ac_property_id application_data) (prop_rent_amount property_data)
        "NGN" "held" "paystack" "rent_payment" (Some held_at) None None
        "Mock escrow - payment held pending approval" in
    do transaction_response <- execute (insert_transaction transaction_dict);
    (* Increment application count on property *)
    do counted <-
      execute (select_single properties (ac_property_id application_data));
    do application_count <- lift
      match counted with
      | None => Raise (Exception "'NoneType' object has no attribute 'get'")
      | Some p => Return (prop_application_count p + 1)
      end;
    do _ <- execute (update_by_id properties set_properties
                       (ac_property_id application_data)
                       (with_application_count application_count));
    ret (application, head transaction_response)
    end end end).

Definition not_owner (property_data : option property) (landlord_id : string) : bool :=
  match property_data with
  | None => true
  | Some p => bool_decide (prop_landlord_id p ≠ landlord_id)
  end.

Definition approve_application (application_id : string) (current_user : identity)
  : M string :=
  try_except 400 "Failed to approve application: " (
    let landlord_id := cu_id current_user in
    (* Fetch application with property *)
    do app_response <- execute (select_application_with_property application_id);
    match app_response with
    | None => raise (HTTPException 404 "Application not found")
    | Some (application, property_data) =>
    (* Verify landlord owns the property *)
    if not_owner property_data landlord_id then
      raise (HTTPException 403
        "You don't have permission to approve this application")
    else
    (* Check if already approved/rejected *)
    if bool_decide (app_status application ∉ ["submitted"; "under_review"]) then
      raise (HTTPException 400
        ("Application is already " +:+ app_status application))
    else
    (* Update application status *)
    do reviewed_at <- datetime_now;
    do _ <- execute (update_by_id applications set_applications application_id
                       (approved reviewed_at landlord_id));
    (* Update transaction status to released *)
    do released_at <- datetime_now;
    do _ <- execute (update_transactions_of application_id (released released_at));
    (* Update property status to rented *)
    do _ <- execute (update_by_id properties set_properties
                       (app_property_id application) rented);
    ret "Application approved successfully"
    end).

Definition reject_application (application_id : string)
    (rejection_data : ApplicationReject) (current_user : identity)
  : M string :=
  try_except 400 "Failed to reject application: " (
    let landlord_id := cu_id current_user in
    (* Fetch application with property *)
    do app_response <- execute (select_application_with_property application_id);
    match app_response with
    | None => raise (HTTPException 404 "Application not found")
    | Some (application, property_data) =>
    (* Verify landlord owns the property *)
    if not_owner property_data landlord_id then
      raise (HTTPException 403
        "You don't have permission to reject this application")
    else
    (* Check if already approved/rejected *)
    if bool_decide (app_status application ∉ ["submitted"; "under_review"]) then
      raise (HTTPException 400
        ("Application is already " +:+ app_status application))
    else
    (* Update application status *)
    do reviewed_at <- datetime_now;
    do _ <- execute (update_by_id applications set_applications application_id
                       (rejected (ar_reason rejection_data)
                          (ar_reason_code rejection_data) reviewed_at landlord_id));
    (* Update transaction status to refunded *)
    do refunded_at <- datetime_now;
    do _ <- execute (update_transactions_of application_id (refunded refunded_at));
    ret "Application rejected"
    end).

(** ** Tenant handlers (tenants.py) *)

Definition with_trust (trust_score : Z) (verification_status : string) (u : user)
  : user :=
  User (usr_email u) (usr_phone_number u) (usr_full_name u) (usr_user_type u)
    trust_score verification_status.

(** [profile_data] is the dict of the fields the request set
    ([profile_data.dict(exclude_unset=True)]). *)
Definition update_tenant_profile (profile_data : dict) (current_user : identity)
  : M dict :=
  try_except 400 "Failed to update profile: " (
    let tenant_id := cu_id current_user in
    (* Update profile *)
    let update_dict := profile_data in
    do response <- execute (update_by_id tenants set_tenants tenant_id
                              (λ row, update_dict ∪ row));
    match response with
    | [] => raise (HTTPException 400 "Failed to update profile")
    | (_, tenant_data) :: _ =>
    (* Recalculate completion *)
    let completion := calculate_profile_completion tenant_data in
    (* Update completion percentage *)
    do _ <- execute (update_by_id tenants set_tenants tenant_id
                       (λ row, <["profile_completion" := VInt completion]> row));
    ret (<["profile_completion" := VInt completion]> tenant_data)
    end).

Definition complete_profile (profile_data : CompleteProfileData)
    (current_user : identity)
  : M (dict * Z) :=
  try_except 400 "Failed to complete profile: " (
    let tenant_id := cu_id current_user in
    (* Prepare documents *)
    let documents : dict :=
      <["id_document" := VStr (cp_id_document_url profile_data)]>
        (<["proof_of_income" := VStr (cp_proof_of_income_url profile_data)]> ∅) in
    (* Add references if provided *)
    let references : list value := [] in
    let references :=
      if truthy (opt_str (cp_reference1_email profile_data))
      then references ++ [opt_str (cp_reference1_email profile_data)]
      else references in
    let references :=
      if truthy (opt_str (cp_reference2_email profile_data))
      then references ++ [opt_str (cp_reference2_email profile_data)]
      else references in
    let documents :=
      if truthy (VList references)
      then <["references" := VList references]> documents
      else documents in
    (* Prepare preferences *)
    let preferences : dict :=
      <["bedrooms" := VInt (cp_bedrooms profile_data)]>
        (<["move_in_date" := opt_str (cp_move_in_date profile_data)]>
           (<["join_rent_credit" := VBool (cp_join_rent_credit profile_data)]> ∅)) in
    (* Update tenant profile *)
    do profile_completed_at <- datetime_now;
    let update_dict : dict :=
      <["budget" := VFloat (cp_budget profile_data)]>
        (<["preferred_location" := VStr (cp_preferred_location profile_data)]>
           (<["preferences" := VDict preferences]>
              (<["documents" := VDict documents]>
                 (<["profile_completion" := VInt 100]>
                    (<["onboarding_completed" := VBool true]>
                       (<["profile_completed_at" := VStr profile_completed_at]> ∅)))))) in
    do response <- execute (update_by_id tenants set_tenants tenant_id
                              (λ row, update_dict ∪ row));
    match response with
    | [] => raise (HTTPException 400 "Failed to complete profile")
    | (_, profile) :: _ =>
    (* Update trust score *)
    let new_trust_score := 70 in  (* Base 50 + Profile completion 20 *)
    let new_trust_score :=
      if cp_join_rent_credit profile_data
      then new_trust_score + 10  (* Bonus for rent credit program *)
      else new_trust_score in
    do _ <- execute (update_by_id users set_users tenant_id
                       (with_trust new_trust_score "approved"));
    ret (profile, new_trust_score)
    end).

(** ** Registration (auth.py) *)

Record UserResponse := {
  ures_id : string;
  ures_email : string;
  ures_full_name : string;
  ures_user_type : string;
  ures_trust_score : Z;
  ures_verification_status : string;
  ures_created_at : string }.

(** The landlord row written at registration. *)
Definition registered_landlord (user_id : string) : dict :=
  <["id" := VStr user_id]>
    (<["guarantee_joined" := VBool false]>
       (<["guarantee_contribution" := VInt 0]> ∅)).

(** [sign_up] is the answer of the identity service to
    [supabase.auth.sign_up]; the call itself may raise like a store call. *)
Definition register (user_data : UserRegister) (sign_up : SignUp)
  : M (UserResponse * string) :=
  try_except 400 "Registration failed: " (
    (* Create auth user with Supabase *)
    do auth_response <- execute (λ d, (Return sign_up, d));
    match su_user auth_response with
    | None => raise (HTTPException 400 "Failed to create user")
    | Some user_id =>
    (* Create user record in database *)
    let user_record :=
      User (ur_email user_data) (ur_phone_number user_data)
        (ur_full_name user_data) (ur_user_type user_data) 50 "partial" in
    do _ <- execute (insert_keyed users set_users user_id user_record);
    (* Create type-specific record *)
    do _ <-
      (if bool_decide (ur_user_type user_data = "tenant") then
         execute (insert_keyed tenants set_tenants user_id (registered_tenant user_id))
       else if bool_decide (ur_user_type user_data = "landlord") then
         execute (insert_keyed landlords set_landlords user_id
                    (registered_landlord user_id))
       else ret []);
    (* Prepare response *)
    do created_at <- datetime_now;
    let user_response :=
      {| ures_id := user_id; ures_email := ur_email user_data;
         ures_full_name := ur_full_name user_data;
         ures_user_type := ur_user_type user_data;
         ures_trust_score := 50; ures_verification_status := "partial";
         ures_created_at := created_at |} in
    do access_token <- lift
      match su_session auth_response with
      | None => Raise (Exception "'NoneType' object has no attribute 'access_token'")
      | Some access_token => Return access_token
      end;
    ret (user_response, access_token)
    end).

(** ** Vocabulary of the specification *)

(** The error kinds, as the handlers raise them. *)
Definition ProfileIncomplete : exn :=
  HTTPException 403
    "You must complete your profile (100%) before applying for properties".
Definition PropertyNotFound : exn := HTTPException 404 "Property not found".
Definition DuplicateApplication : exn :=
  HTTPException 400 "You have already applied for this property".
Definition NotFound : exn := HTTPException 404 "Application not found".
Definition Forbidden (action : string) : exn :=
  HTTPException 403
    ("You don't have permission to " +:+ action +:+ " this application").
Definition InvalidTransition (status : string) : exn :=
  HTTPException 400 ("Application is already " +:+ status).

(** No store call of the coming handler raises. *)
Definition storage_available (w : world) : Prop := faults w = [].

Definition pending (status : string) : Prop :=
  status = "submitted" ∨ status = "under_review".
Definition terminal (status : string) : Prop :=
  status = "approved" ∨ status = "rejected".

(** submitted/under_review ↔ held, approved ↔ released, rejected ↔ refunded *)
Definition escrow_status_of (application_status : string) : option string :=
  if decide (application_status = "submitted") then Some "held"
  else if decide (application_status = "under_review") then Some "held"
  else if decide (application_status = "approved") then Some "released"
  else if decide (application_status = "rejected") then Some "refunded"
  else None.

(** Every escrow transaction belongs to an application whose status it
    mirrors, and every application has exactly one escrow transaction. *)
Record escrow_mirrors (d : database) : Prop := {
  mirrors_status : ∀ tid t,
    transactions d !! tid = Some t →
    ∃ a, applications d !! txn_application_id t = Some a ∧
         escrow_status_of (app_status a) = Some (txn_status t);
  mirrors_paired : ∀ id a,
    applications d !! id = Some a →
    ∃ tid t, transactions d !! tid = Some t ∧ txn_application_id t = id;
  mirrors_unique : ∀ tid1 tid2 t1 t2,
    transactions d !! tid1 = Some t1 →
    transactions d !! tid2 = Some t2 →
    txn_application_id t1 = txn_application_id t2 → tid1 = tid2 }.

(** The lifecycle operations, and the world after one of them. *)
Inductive lifecycle_call :=
| Submit (application_data : ApplicationCreate) (current_user : identity)
| Approve (application_id : string) (current_user : identity)
| Reject (application_id : string) (rejection_data : ApplicationReject)
         (current_user : identity).

Definition after (w : world) (c : lifecycle_call) : world :=
  match c with
  | Submit application_data current_user =>
      (create_application application_data current_user w).2
  | Approve application_id current_user =>
      (approve_application application_id current_user w).2
  | Reject application_id rejection_data current_user =>
      (reject_application application_id rejection_data current_user w).2
  end.

(** The profile gate of [create_application], on the row it reads. *)
Definition gate (tenant_profile : option dict) : outcome bool :=
  match tenant_profile with
  | None => Return true
  | Some row => py_lt (get row "profile_completion") 100
  end.

(** The store after a successful [approve_application] / [reject_application]
    started at clock [c]. *)
Definition approve_effect (application_id landlord_id : string) (c : nat)
    (a : application) (d : database) : database :=
  set_properties (alter rented (app_property_id a))
    (set_transactions
       (fmap (λ t, if decide (txn_application_id t = application_id)
                   then released (isoformat (S c)) t else t))
       (set_applications
          (alter (approved (isoformat c) landlord_id) application_id) d)).

Definition reject_effect (application_id : string) (rejection_data : ApplicationReject)
    (landlord_id : string) (c : nat) (d : database) : database :=
  set_transactions
    (fmap (λ t, if decide (txn_application_id t = application_id)
                then refunded (isoformat (S c)) t else t))
    (set_applications
       (alter (rejected (ar_reason rejection_data) (ar_reason_code rejection_data)
                 (isoformat c) landlord_id) application_id) d).

(** The rows [create_application] writes, and the store after the first
    [mutations] of its three writes (Application insert, escrow hold, counter
    increment), for a call on property [p] started at clock [c]. *)
Definition new_application (application_data : ApplicationCreate)
    (tenant_id : string) : application :=
  Application tenant_id (ac_property_id application_data) "submitted"
    (ac_message application_data) (ac_proposed_move_in_date application_data)
    ∅ None None None None.

Definition new_escrow (application_id : string) (application_data : ApplicationCreate)
    (tenant_id : string) (p : property) (held_at : string) : transaction :=
  Transaction application_id tenant_id (prop_landlord_id p)
    (ac_property_id application_data) (prop_rent_amount p)
    "NGN" "held" "paystack" "rent_payment" (Some held_at) None None
    "Mock escrow - payment held pending approval".

Definition submit_effect (mutations : nat) (application_data : ApplicationCreate)
    (tenant_id : string) (p : property) (c : nat) (d : database) : database :=
  let application_id := fresh (dom (applications d)) in
  let d1 :=
    set_applications
      (insert application_id (new_application application_data tenant_id)) d in
  let d2 :=
    set_transactions
      (insert (fresh (dom (transactions d)))
         (new_escrow application_id application_data tenant_id p (isoformat c))) d1 in
  let d3 :=
    set_properties
      (alter (with_application_count (prop_application_count p + 1))
         (ac_property_id application_data)) d2 in
  match mutations with
  | O => d
  | 1%nat => d1
  | 2%nat => d2
  | _ => d3
  end.

(** The tenant's stored profile lets [create_application] past its gate. *)
Definition passes_gate (d : database) (tenant_id : string) : Prop :=
  gate (tenants d !! tenant_id) = Return false.

(** The landlord owns the property the application is for. *)
Definition owns (d : database) (landlord_id : string) (a : application) : Prop :=
  ∃ p, properties d !! app_property_id a = Some p ∧ prop_landlord_id p = landlord_id.

(** The coming store call raises. *)
Definition next_call_raises (w : world) : Prop :=
  ∃ msg, head (faults w) = Some (Some msg).

(** ** A run of the system

    A tenant registers, a landlord lists a flat at 150000, the tenant
    completes the profile and applies; the landlord then approves, or
    rejects. *)

Definition tenant1 : identity := Identity "tenant-1" "tenant".
Definition landlord1 : identity := Identity "landlord-1" "landlord".
Definition landlord2 : identity := Identity "landlord-2" "landlord".

Definition tenant1_signup : UserRegister :=
  {| ur_email := "ada@example.com"; ur_password := "secret1";
     ur_full_name := "Ada Obi"; ur_user_type := "tenant";
     ur_phone_number := None |}.

Definition tenant1_signed_up : SignUp :=
  {| su_user := Some "tenant-1"; su_session := Some "token-1" |}.

Definition tenant1_profile (join_rent_credit : bool) : CompleteProfileData :=
  {| cp_budget := 200000 # 1; cp_preferred_location := "Yaba"; cp_bedrooms := 2;
     cp_move_in_date := None;
     cp_id_document_url := "https://files.example/id.pdf";
     cp_proof_of_income_url := "https://files.example/income.pdf";
     cp_reference1_email := Some "ref@example.com"; cp_reference2_email := None;
     cp_join_rent_credit := join_rent_credit |}.

Definition flat : property :=
  Property "landlord-1" "Two bedroom flat in Yaba" (150000 # 1) "active" 0.

Definition flat_request : ApplicationCreate :=
  {| ac_property_id := "property-1";
     ac_message := Some "I would like to rent this flat";
     ac_proposed_move_in_date := None |}.

Definition not_eligible : ApplicationReject :=
  {| ar_reason := "not eligible"; ar_reason_code := "R1" |}.

Definition world_start : world := World empty_database [] 0.

Definition world_registered : world :=
  (register tenant1_signup tenant1_signed_up world_start).2.

Definition world_listed : world :=
  World (set_properties (insert "property-1" flat) (db world_registered))
        [] (clock world_registered).

Definition world_completed : world :=
  (complete_profile (tenant1_profile true) tenant1 world_listed).2.

Definition world_submitted : world :=
  after world_completed (Submit flat_request tenant1).

Definition world_approved : world :=
  after world_submitted (Approve "0" landlord1).

Definition world_rejected : world :=
  after world_submitted (Reject "0" not_eligible landlord1).

(** The store calls of a successful [create_application], in order: profile
    read, property read, duplicate check, Application insert, escrow insert,
    counter read, counter write. [mutations_before k] is the number of writes
    already made when call number [k] (from 0) is reached. *)
Definition mutations_before (k : nat) : nat :=
  if (k <=? 3)%nat then 0%nat else if (k =? 4)%nat then 1%nat else
  if (k <=? 6)%nat then 2%nat else 3%nat.

(** All-or-nothing, for one call of [create_application]: afterwards the
    store is either as before or holds all three effects. *)
Definition all_or_nothing (w : world) (application_data : ApplicationCreate)
    (current_user : identity) : Prop :=
  let d' := db (create_application application_data current_user w).2 in
  d' = db w ∨
  ∃ p, properties (db w) !! ac_property_id application_data = Some p ∧
       d' = submit_effect 3 application_data (cu_id current_user) p (clock w) (db w).

(** The store fails at the fifth call (the escrow insert) of a submission. *)
Definition world_completed_flaky : world :=
  World (db world_completed) [None; None; None; None; Some "connection reset"]
        (clock world_completed).

(** The store fails at the third call (the escrow update) of a review. *)
Definition world_submitted_flaky : world :=
  World (db world_submitted) [None; None; Some "connection reset"]
        (clock world_submitted).

(** * The rest of the handlers

    The auth middleware the routes depend on, the listing of applications,
    the tenant profile reads and the typed profile update. *)

(** ** Auth middleware (middleware/auth.py) *)

Definition credentials_exception : exn :=
  HTTPException 401 "Could not validate credentials".

(** [token_user] is what [supabase_admin.auth.get_user(token)] answers: the id
    of the user the token belongs to, if any. Every exception of the body,
    its own included, is turned into [credentials_exception]. *)
Definition get_current_user (token_user : option string) : M identity := λ w,
  match
    (do user_response <- execute (λ d, (Return token_user, d));
     match user_response with
     | None => raise credentials_exception
     | Some user_id =>
         (* Fetch complete user profile from database *)
         do response <- execute (select_single users user_id);
         match response with
         | None => raise credentials_exception
         | Some data => ret (Identity user_id (usr_user_type data))
         end
     end) w
  with
  | (Raise _, w') => (Raise credentials_exception, w')
  | r => r
  end.

Definition get_current_tenant (current_user : identity) : M identity :=
  if bool_decide (cu_user_type current_user ≠ "tenant") then
    raise (HTTPException 403 "Only tenants can access this resource")
  else ret current_user.

Definition get_current_landlord (current_user : identity) : M identity :=
  if bool_decide (cu_user_type current_user ≠ "landlord") then
    raise (HTTPException 403 "Only landlords can access this resource")
  else ret current_user.

Definition get_current_admin (current_user : identity) : M identity :=
  if bool_decide (cu_user_type current_user ≠ "admin") then
    raise (HTTPException 403 "Only admins can access this resource")
  else ret current_user.

(** The routes of applications.py: [Depends(get_current_tenant)] and
    [Depends(get_current_landlord)] run, on top of [get_current_user],
    before the handler is entered. *)
Definition route_create_application (token_user : option string)
    (application_data : ApplicationCreate) :=
  do user <- get_current_user token_user;
  do current_user <- get_current_tenant user;
  create_application application_data current_user.

Definition route_approve_application (token_user : option string)
    (application_id : string) :=
  do user <- get_current_user token_user;
  do current_user <- get_current_landlord user;
  approve_application application_id current_user.

Definition route_reject_application (token_user : option string)
    (application_id : string) (rejection_data : ApplicationReject) :=
  do user <- get_current_user token_user;
  do current_user <- get_current_landlord user;
  reject_application application_id rejection_data current_user.

(** ** Listing applications ([get_applications], applications.py)

    The rows of a listing are kept as a finite map from application id; the
    order the store returns them in ([created_at], a column the store fills
    in) is not modelled. *)

(** [select("*, property:properties(.., landlord:users!landlord_id(..))")
      .eq("tenant_id", user_id)]: the tenant's applications, each with its
    property embedded when there is one, and in it the landlord's user row. *)
Definition tenant_rows (user_id : string) (d : database)
  : gmap string (application * option (property * option user)) :=
  (λ a, (a, (λ p, (p, users d !! prop_landlord_id p))
              <$> properties d !! app_property_id a))
  <$> filter (λ kv, app_tenant_id kv.2 = user_id) (applications d).

Definition select_applications_for_tenant (user_id : string)
  : database →
    outcome (gmap string (application * option (property * option user))) * database :=
  λ d, (Return (tenant_rows user_id d), d).

(** [select("*, property:properties!inner(..), tenant:users!tenant_id(..)")
      .eq("property.landlord_id", user_id)]: the inner join keeps the
    applications whose property exists and has this landlord. *)
Definition landlord_rows (user_id : string) (d : database)
  : gmap string (application * property * option user) :=
  omap (λ a, match properties d !! app_property_id a with
             | Some p => if decide (prop_landlord_id p = user_id)
                         then Some (a, p, users d !! app_tenant_id a)
                         else None
             | None => None
             end) (applications d).

Definition select_applications_for_landlord (user_id : string)
  : database → outcome (gmap string (application * property * option user)) * database :=
  λ d, (Return (landlord_rows user_id d), d).

Inductive listing :=
| TenantListing (rows : gmap string (application * option (property * option user)))
| LandlordListing (rows : gmap string (application * property * option user)).

(** The ids of the applications a listing shows. *)
Definition listed (l : listing) : gset string :=
  match l with
  | TenantListing rows => dom rows
  | LandlordListing rows => dom rows
  end.

Definition get_applications (current_user : identity) : M listing :=
  try_except 500 "Failed to fetch applications: " (
    let user_id := cu_id current_user in
    let user_type := cu_user_type current_user in
    if bool_decide (user_type = "tenant") then
      (* Fetch tenant's applications *)
      do response <- execute (select_applications_for_tenant user_id);
      ret (TenantListing response)
    else if bool_decide (user_type = "landlord") then
      (* Fetch applications for landlord's properties *)
      do response <- execute (select_applications_for_landlord user_id);
      ret (LandlordListing response)
    else
      raise (HTTPException 403 "Invalid user type")).

(** ** Tenant profile reads (tenants.py) *)

Definition get_tenant_profile (current_user : identity) : M dict :=
  try_except 500 "Failed to fetch profile: " (
    let tenant_id := cu_id current_user in
    (* Fetch tenant profile *)
    do response <- execute (select_single tenants tenant_id);
    match response with
    | None => raise (HTTPException 404 "Tenant profile not found")
    | Some tenant_data =>
        if negb (truthy (VDict tenant_data)) then
          raise (HTTPException 404 "Tenant profile not found")
        else
        (* Calculate profile completion *)
        let completion := calculate_profile_completion tenant_data in
        ret (<["profile_completion" := VInt completion]> tenant_data)
    end).

Record ProfileStatus := {
  ps_profile_completion : Z;
  ps_onboarding_completed : value;
  ps_trust_score : Z;
  ps_verification_status : string;
  ps_missing_fields : list string;
  ps_can_apply : bool }.

(** The body of [get_profile_status] once both rows are read. *)
Definition profile_status (tenant_data : dict) (user_data : option user)
  : ProfileStatus :=
  (* Calculate completion *)
  let completion := calculate_profile_completion tenant_data in
  (* Determine missing fields *)
  let missing_fields : list string := [] in
  let missing_fields :=
    if negb (truthy (get tenant_data "budget"))
    then missing_fields ++ ["budget"] else missing_fields in
  let missing_fields :=
    if negb (truthy (get tenant_data "preferred_location"))
    then missing_fields ++ ["preferred_location"] else missing_fields in
  let documents := get_default tenant_data "documents" (VDict ∅) in
  let missing_fields :=
    match documents with
    | VDict documents =>
        let missing_fields :=
          if negb (truthy (get documents "id_document"))
          then missing_fields ++ ["id_document"] else missing_fields in
        if negb (truthy (get documents "proof_of_income"))
        then missing_fields ++ ["proof_of_income"] else missing_fields
    | _ => missing_fields ++ ["id_document"; "proof_of_income"]
    end in
  {| ps_profile_completion := completion;
     ps_onboarding_completed :=
       get_default tenant_data "onboarding_completed" (VBool false);
     ps_trust_score :=
       match user_data with Some u => usr_trust_score u | None => 50 end;
     ps_verification_status :=
       match user_data with
       | Some u => usr_verification_status u
       | None => "partial"
       end;
     ps_missing_fields := missing_fields;
     ps_can_apply := 100 <=? completion |}.

Definition get_profile_status (current_user : identity) : M ProfileStatus :=
  try_except 500 "Failed to fetch profile status: " (
    let tenant_id := cu_id current_user in
    (* Fetch tenant and user data *)
    do tenant_response <- execute (select_single tenants tenant_id);
    do user_response <- execute (select_single users tenant_id);
    match tenant_response with
    | None => raise (HTTPException 404 "Tenant profile not found")
    | Some tenant_data =>
        if negb (truthy (VDict tenant_data)) then
          raise (HTTPException 404 "Tenant profile not found")
        else ret (profile_status tenant_data user_response)
    end).

(** ** The typed profile update ([TenantProfileUpdate], tenants.py)

    Every field is optional and may be left out of the request, sent as
    null, or sent with a value. *)
Record TenantProfileUpdate := {
  tpu_budget : option (option Q);
  tpu_preferred_location : option (option string);
  tpu_move_in_date : option (option string);
  tpu_preferences : option (option dict) }.

Definition set_field {A} (k : string) (field : option (option A))
    (to_value : A → value) (d : dict) : dict :=
  match field with
  | None => d
  | Some None => <[k := VNone]> d
  | Some (Some x) => <[k := to_value x]> d
  end.

(** [profile_data.dict(exclude_unset=True)] *)
Definition exclude_unset (profile_data : TenantProfileUpdate) : dict :=
  set_field "budget" (tpu_budget profile_data) VFloat
    (set_field "preferred_location" (tpu_preferred_location profile_data) VStr
       (set_field "move_in_date" (tpu_move_in_date profile_data) VStr
          (set_field "preferences" (tpu_preferences profile_data) VDict ∅))).

(** ** Calls of the API that write, and the world after one of them *)

Inductive api_call :=
| Register (user_data : UserRegister) (sign_up : SignUp)
| UpdateProfile (profile_data : TenantProfileUpdate) (current_user : identity)
| CompleteProfile (profile_data : CompleteProfileData) (current_user : identity)
| Lifecycle (c : lifecycle_call).

Definition after_call (w : world) (c : api_call) : world :=
  match c with
  | Register user_data sign_up => (register user_data sign_up w).2
  | UpdateProfile profile_data current_user =>
      (update_tenant_profile (exclude_unset profile_data) current_user w).2
  | CompleteProfile profile_data current_user =>
      (complete_profile profile_data current_user w).2
  | Lifecycle c => after w c
  end.

(** The stored completion of every tenant row lets a submission through
    exactly when the row's onboarding is completed. *)
Definition gate_agrees (d : database) : Prop :=
  ∀ id row, tenants d !! id = Some row →
            gate (Some row) = Return (negb (step3 row)).

(** The stored completion of every tenant row is the one
    [calculate_profile_completion] gives for the row. *)
Definition completion_in_sync (d : database) : Prop :=
  ∀ id row, tenants d !! id = Some row →
            get row "profile_completion" = VInt (calculate_profile_completion row).

(** The fields [complete_profile] writes to the tenant row at clock [c], and
    the trust score it sets. *)
Definition completion_update (profile_data : CompleteProfileData) (c : nat) : dict :=
  let documents : dict :=
    <["id_document" := VStr (cp_id_document_url profile_data)]>
      (<["proof_of_income" := VStr (cp_proof_of_income_url profile_data)]> ∅) in
  let references : list value := [] in
  let references :=
    if truthy (opt_str (cp_reference1_email profile_data))
    then references ++ [opt_str (cp_reference1_email profile_data)]
    else references in
  let references :=
    if truthy (opt_str (cp_reference2_email profile_data))
    then references ++ [opt_str (cp_reference2_email profile_data)]
    else references in
  let documents :=
    if truthy (VList references)
    then <["references" := VList references]> documents
    else documents in
  let preferences : dict :=
    <["bedrooms" := VInt (cp_bedrooms profile_data)]>
      (<["move_in_date" := opt_str (cp_move_in_date profile_data)]>
         (<["join_rent_credit" := VBool (cp_join_rent_credit profile_data)]> ∅)) in
  <["budget" := VFloat (cp_budget profile_data)]>
    (<["preferred_location" := VStr (cp_preferred_location profile_data)]>
       (<["preferences" := VDict preferences]>
          (<["documents" := VDict documents]>
             (<["profile_completion" := VInt 100]>
                (<["onboarding_completed" := VBool true]>
                   (<["profile_completed_at" := VStr (isoformat c)]> ∅)))))).

Definition completion_score (profile_data : CompleteProfileData) : Z :=
  if cp_join_rent_credit profile_data then 80 else 70.

(** ** A Hoare logic for the handler monad

    [hoare P m Q E]: run from a store satisfying [P], whatever the faults,
    [m] either returns [a] in a store satisfying [Q a] or raises in a store
    satisfying [E]. *)
Definition hoare {A} (P : database → Prop) (m : M A)
    (Q : A → database → Prop) (E : database → Prop) : Prop :=
  ∀ w, P (db w) →
       match m w with
       | (Return a, w') => Q a (db w')
       | (Raise _, w') => E (db w')
       end.

(** ** More of the run: a landlord account, and a second tenant *)

Definition landlord1_signup : UserRegister :=
  {| ur_email := "bola@example.com"; ur_password := "secret2";
     ur_full_name := "Bola Ade"; ur_user_type := "landlord";
     ur_phone_number := Some "+2348000000000" |}.

Definition landlord1_signed_up : SignUp :=
  {| su_user := Some "landlord-1"; su_session := Some "token-2" |}.

Definition tenant2 : identity := Identity "tenant-2" "tenant".

Definition tenant2_signup : UserRegister :=
  {| ur_email := "chi@example.com"; ur_password := "secret3";
     ur_full_name := "Chi Eze"; ur_user_type := "tenant";
     ur_phone_number := None |}.

Definition tenant2_signed_up : SignUp :=
  {| su_user := Some "tenant-2"; su_session := None |}.

(** The world of [world_submitted] with the landlord's account added. *)
Definition world_with_landlord : world :=
  after_call world_submitted (Register landlord1_signup landlord1_signed_up).

(** Two profile updates: one clears the budget and the location, one sets
    them. *)
Definition clear_budget : TenantProfileUpdate :=
  {| tpu_budget := Some None; tpu_preferred_location := Some (Some "");
     tpu_move_in_date := None; tpu_preferences := None |}.

Definition set_budget : TenantProfileUpdate :=
  {| tpu_budget := Some (Some (250000 # 1)%Q);
     tpu_preferred_location := Some (Some "Lekki");
     tpu_move_in_date := None; tpu_preferences := None |}.

(** The role errors of the middleware and of [get_applications]. *)
Definition only_tenants : exn :=
  HTTPException 403 "Only tenants can access this resource".
Definition only_landlords : exn :=
  HTTPException 403 "Only landlords can access this resource".
Definition invalid_user_type : exn := HTTPException 403 "Invalid user type".

(** A handler that leaves one table of the store alone, whatever the faults. *)
Definition keeps {A X} (table : database → X) (m : M A) : Prop :=
  ∀ T, hoare (λ d, table d = T) m (λ _ d, table d = T) (λ d, table d = T).

Definition cannot_complete : exn := HTTPException 400 "Failed to complete profile".
Definition cannot_update : exn := HTTPException 400 "Failed to update profile".

(** A document is on file. *)
Definition has_document (p : dict) (kind : string) : bool :=
  match p !! "documents" with
  | Some (VDict docs) => present docs kind
  | _ => false
  end.

(** The one-field list of a field that is missing, empty when [b] holds. *)
Definition unless (b : bool) (field : string) : list string :=
  if b then [] else [field].

(** The text of the [AttributeError] of [auth_response.session.access_token]
    when no session was opened. *)
Definition no_access_token : string :=
  "'NoneType' object has no attribute 'access_token'".

(** The user row [register] writes, and the store after its writes for a
    new [user_id]. *)
Definition new_user (user_data : UserRegister) : user :=
  User (ur_email user_data) (ur_phone_number user_data) (ur_full_name user_data)
    (ur_user_type user_data) 50 "partial".

Definition registered (user_data : UserRegister) (user_id : string) (d : database)
  : database :=
  (if bool_decide (ur_user_type user_data = "tenant")
   then set_tenants (insert user_id (registered_tenant user_id))
   else if bool_decide (ur_user_type user_data = "landlord")
   then set_landlords (insert user_id (registered_landlord user_id))
   else λ d, d)
    (set_users (insert user_id (new_user user_data)) d).

(** The store still holds these user, tenant and landlord rows. *)
Definition has_rows (us : gmap string user) (ts ls : gmap string dict)
    (d : database) : Prop :=
  us ⊆ users d ∧ ts ⊆ tenants d ∧ ls ⊆ landlords d.

(** The tenant row stored for [id], for the concrete runs. *)
Definition stored_profile (w : world) (id : string) : dict :=
  default ∅ (tenants (db w) !! id).


(** A run of the profile and lifecycle calls from the empty store. *)
Definition tenant1_calls : list api_call :=
  [Register tenant1_signup tenant1_signed_up;
   UpdateProfile set_budget tenant1;
   CompleteProfile (tenant1_profile true) tenant1;
   UpdateProfile clear_budget tenant1;
   Lifecycle (Submit flat_request tenant1)].

Lemma truthy_py_and (a b : value) : truthy (py_and a b) = truthy a && truthy b.
Proof. unfold py_and. destruct (truthy a) eqn:E; simpl; auto. Qed.

Lemma completion_is_floor (p : dict) :
  calculate_profile_completion p = step_floor (step_reached p).
Proof.
  unfold calculate_profile_completion, step_reached, step3, step2, step1, present.
  rewrite truthy_py_and.
  destruct (truthy (get p "onboarding_completed")); [reflexivity|].
  unfold get_default.
  destruct (p !! "documents") as [[| | | | | |docs]|]; cbn [default from_option id];
    try (destruct (truthy (get p "budget") && truthy (get p "preferred_location"));
         reflexivity).
  rewrite truthy_py_and.
  destruct (truthy (get docs "id_document") && truthy (get docs "proof_of_income")),
    (truthy (get p "budget") && truthy (get p "preferred_location")); reflexivity.
Qed.

Lemma step_floor_mono (m n : nat) : (m ≤ n)%nat → step_floor m ≤ step_floor n.
Proof.
  intros H.
  destruct m as [|[|[|m]]], n as [|[|[|n]]]; simpl; lia.
Qed.

(** C8. Profile completion is 0 on the empty profile (and on the row written
    at registration), at least 33 once budget and preferred location are
    present, at least 67 once both documents are present whatever step 1
    holds, exactly 100 once onboarding is completed, always one of the four
    floors, and it never decreases when the step reached does not. *)
Theorem profile_completion_steps :
  calculate_profile_completion ∅ = 0 ∧
  (∀ user_id, calculate_profile_completion (registered_tenant user_id) = 0) ∧
  (∀ p, step1 p = true → 33 ≤ calculate_profile_completion p) ∧
  (∀ p, step2 p = true → 67 ≤ calculate_profile_completion p) ∧
  (∀ p, step3 p = true → calculate_profile_completion p = 100) ∧
  (∀ p, calculate_profile_completion p ∈ [0; 33; 67; 100]) ∧
  (∀ p p', (step_reached p ≤ step_reached p')%nat →
           calculate_profile_completion p ≤ calculate_profile_completion p').
Proof.
  split; [reflexivity|].
  split; [intros; reflexivity|].
  repeat split.
  - intros p H. rewrite completion_is_floor. unfold step_reached. rewrite H.
    destruct (step3 p), (step2 p); simpl; lia.
  - intros p H. rewrite completion_is_floor. unfold step_reached. rewrite H.
    destruct (step3 p); simpl; lia.
  - intros p H. rewrite completion_is_floor. unfold step_reached. rewrite H.
    reflexivity.
  - intros p. rewrite completion_is_floor. unfold step_reached.
    destruct (step3 p), (step2 p), (step1 p); simpl; set_solver.
  - intros p p' H. rewrite !completion_is_floor. by apply step_floor_mono.
Qed.

(** ** Running the handlers *)

Lemma project_one (c : string) (row : dict) :
  project [c] row = {[ c := get row c ]}.
Proof. reflexivity. Qed.

Lemma truthy_project_one (c : string) (row : dict) :
  truthy (VDict (project [c] row)) = true.
Proof. rewrite project_one. cbn [truthy]. by rewrite map_size_singleton. Qed.

Lemma get_default_project_one (c : string) (row : dict) (dflt : value) :
  get_default (project [c] row) c dflt = get row c.
Proof. rewrite project_one. unfold get_default. by rewrite lookup_singleton_eq. Qed.

Lemma create_application_gate (application_data : ApplicationCreate)
    (current_user : identity) (d : database) (fs : list (option string)) (c : nat) :
  (∀ msg, head fs ≠ Some (Some msg)) →
  gate (tenants d !! cu_id current_user) = Return true →
  create_application application_data current_user (World d fs c)
  = (Raise ProfileIncomplete, World d (tail fs) c).
Proof.
  intros Hok Hgate.
  unfold create_application, try_except, bind, execute, select_tenant_cols, lift.
  cbn [faults db clock].
  destruct fs as [|[msg|] fs']; [| by destruct (Hok msg) |];
    (destruct (tenants d !! cu_id current_user) as [row|] eqn:Hrow;
     cbn [fmap option_fmap option_map];
     [ rewrite truthy_project_one, get_default_project_one; cbn [negb];
       cbn [gate] in Hgate; rewrite Hgate; reflexivity
     | reflexivity ]).
Qed.

Lemma status_check (status : string) :
  bool_decide (status ∉ ["submitted"; "under_review"])
  = negb (bool_decide (pending status)).
Proof.
  unfold pending. rewrite <- bool_decide_not. apply bool_decide_ext.
  rewrite !elem_of_cons, elem_of_nil. tauto.
Qed.

Lemma approve_application_run (application_id : string) (current_user : identity)
    (d : database) (c : nat) :
  approve_application application_id current_user (World d [] c) =
  match applications d !! application_id with
  | None => (Raise NotFound, World d [] c)
  | Some a =>
      if not_owner (properties d !! app_property_id a) (cu_id current_user)
      then (Raise (Forbidden "approve"), World d [] c)
      else if bool_decide (pending (app_status a))
      then (Return "Application approved successfully",
            World (approve_effect application_id (cu_id current_user) c a d)
                  [] (S (S c)))
      else (Raise (InvalidTransition (app_status a)), World d [] c)
  end.
Proof.
  unfold approve_application, try_except, bind, execute,
    select_application_with_property.
  cbn [faults db clock tail].
  destruct (applications d !! application_id) as [a|]; [|reflexivity].
  cbn [fmap option_fmap option_map].
  destruct (not_owner _ _); [reflexivity|].
  rewrite status_check. destruct (bool_decide (pending (app_status a))); reflexivity.
Qed.

Lemma reject_application_run (application_id : string)
    (rejection_data : ApplicationReject) (current_user : identity)
    (d : database) (c : nat) :
  reject_application application_id rejection_data current_user (World d [] c) =
  match applications d !! application_id with
  | None => (Raise NotFound, World d [] c)
  | Some a =>
      if not_owner (properties d !! app_property_id a) (cu_id current_user)
      then (Raise (Forbidden "reject"), World d [] c)
      else if bool_decide (pending (app_status a))
      then (Return "Application rejected",
            World (reject_effect application_id rejection_data
                     (cu_id current_user) c d)
                  [] (S (S c)))
      else (Raise (InvalidTransition (app_status a)), World d [] c)
  end.
Proof.
  unfold reject_application, try_except, bind, execute,
    select_application_with_property.
  cbn [faults db clock tail].
  destruct (applications d !! application_id) as [a|]; [|reflexivity].
  cbn [fmap option_fmap option_map].
  destruct (not_owner _ _); [reflexivity|].
  rewrite status_check. destruct (bool_decide (pending (app_status a))); reflexivity.
Qed.

Ltac run :=
  unfold try_except, bind, execute, lift, ret, raise, datetime_now,
    select_single, select_tenant_cols, select_applications_of,
    insert_application, insert_transaction, insert_keyed, update_by_id;
  cbn [faults db clock tail fmap option_fmap option_map fst snd negb].

Lemma create_application_run (application_data : ApplicationCreate)
    (current_user : identity) (d : database) (c : nat) :
  create_application application_data current_user (World d [] c) =
  match gate (tenants d !! cu_id current_user) with
  | Raise (Exception msg) =>
      (Raise (HTTPException 400 ("Failed to submit application: " +:+ msg)),
       World d [] c)
  | Raise e => (Raise e, World d [] c)
  | Return true => (Raise ProfileIncomplete, World d [] c)
  | Return false =>
      match properties d !! ac_property_id application_data with
      | None => (Raise PropertyNotFound, World d [] c)
      | Some p =>
          match map_to_list (applications_of (cu_id current_user)
                               (ac_property_id application_data) d) with
          | _ :: _ => (Raise DuplicateApplication, World d [] c)
          | [] =>
              (Return
                 ((fresh (dom (applications d)),
                   new_application application_data (cu_id current_user)),
                  Some (fresh (dom (transactions d)),
                        new_escrow (fresh (dom (applications d))) application_data
                          (cu_id current_user) p (isoformat c))),
               World (submit_effect 3 application_data (cu_id current_user) p c d)
                     [] (S c))
          end
      end
  end.
Proof.
  unfold create_application. run.
  destruct (tenants d !! cu_id current_user) as [row|] eqn:Hrow; run;
    [|reflexivity].
  rewrite truthy_project_one, get_default_project_one. run. cbn [gate].
  destruct (py_lt (get row "profile_completion") 100) as [[|]|[code detail|msg]];
    try reflexivity.
  run. destruct (properties d !! ac_property_id application_data) as [p|] eqn:Hp;
    [|reflexivity].
  destruct (map_to_list _) as [|[id a] rest]; [|reflexivity].
  cbn [fmap list_fmap]. run.
  cbn [set_applications set_transactions set_properties properties applications
       transactions].
  rewrite Hp. reflexivity.
Qed.

Lemma applications_of_nonempty (tenant_id property_id : string) (d : database) :
  map_to_list (applications_of tenant_id property_id d) ≠ [] ↔
  ∃ id a, applications d !! id = Some a ∧
          app_tenant_id a = tenant_id ∧ app_property_id a = property_id.
Proof.
  rewrite map_to_list_empty_iff. unfold applications_of. split.
  - intros Hne. apply map_choose in Hne as (id & a & Hlook).
    apply map_lookup_filter_Some in Hlook as [Hlook [? ?]]. eauto.
  - intros (id & a & Hlook & Ht & Hp) Hempty.
    assert (Hin : filter (λ kv : string * application,
                    app_tenant_id kv.2 = tenant_id ∧ app_property_id kv.2 = property_id)
                    (applications d) !! id = Some a).
    { apply map_lookup_filter_Some. auto. }
    rewrite Hempty, lookup_empty in Hin. discriminate.
Qed.

Lemma not_owner_owns (d : database) (landlord_id : string) (a : application) :
  not_owner (properties d !! app_property_id a) landlord_id = false ↔
  owns d landlord_id a.
Proof.
  unfold not_owner, owns. destruct (properties d !! app_property_id a) as [p|].
  - rewrite bool_decide_eq_false. split.
    + intros H. exists p. split; [done|]. by destruct (decide (prop_landlord_id p = landlord_id)).
    + intros (p' & [= <-] & Hl) Hne. done.
  - split; [discriminate|]. by intros (p & ? & _).
Qed.

Lemma gate_raises (tenant_profile : option dict) (e : exn) :
  gate tenant_profile = Raise e → ∃ msg, e = Exception msg.
Proof.
  destruct tenant_profile as [row|]; [|discriminate]. cbn [gate].
  destruct (get row "profile_completion"); cbn [py_lt]; intros [= <-]; eauto.
Qed.

Lemma pending_not_terminal (status : string) : terminal status → ¬ pending status.
Proof. intros [-> | ->] [? | ?]; discriminate. Qed.

Lemma escrow_mirrors_no_applications (d : database) :
  applications d = ∅ → transactions d = ∅ → escrow_mirrors d.
Proof.
  intros Ha Ht. split.
  - intros tid t. rewrite Ht, lookup_empty. discriminate.
  - intros id a. rewrite Ha, lookup_empty. discriminate.
  - intros tid1 tid2 t1 t2. rewrite Ht, lookup_empty. discriminate.
Qed.

Lemma fresh_key_unused {R} (m : gmap string R) : m !! fresh (dom m) = None.
Proof. apply not_elem_of_dom, is_fresh. Qed.

Lemma review_effect_mirrors (application_id : string) (status escrow : string)
    (fa : application → application) (ft : transaction → transaction) (d : database) :
  (∀ a, app_status (fa a) = status) →
  (∀ t, txn_status (ft t) = escrow) →
  (∀ t, txn_application_id (ft t) = txn_application_id t) →
  escrow_status_of status = Some escrow →
  escrow_mirrors d →
  escrow_mirrors
    (set_transactions
       (fmap (λ t, if decide (txn_application_id t = application_id) then ft t else t))
       (set_applications (alter fa application_id) d)).
Proof.
  intros Hfa Hft Hid Hmap [Hs Hp Hu]. split;
    cbn [set_transactions set_applications applications transactions].
  - intros tid t' Ht'. apply lookup_fmap_Some in Ht' as (t & <- & Ht).
    destruct (Hs tid t Ht) as (a & Ha & Hst).
    destruct (decide (txn_application_id t = application_id)) as [E|E].
    + rewrite Hid, E. exists (fa a). rewrite lookup_alter_eq, <- E, Ha.
      split; [done|]. by rewrite Hfa, Hft.
    + exists a. by rewrite lookup_alter_ne.
  - intros id a' Ha'. apply lookup_alter_Some in Ha' as [(-> & a & Ha & ->)|(Hne & Ha)].
    + destruct (Hp _ _ Ha) as (tid & t & Ht & E).
      eexists tid, _. rewrite lookup_fmap, Ht. split; [done|].
      cbn. rewrite decide_True by done. by rewrite Hid.
    + destruct (Hp _ _ Ha) as (tid & t & Ht & E).
      eexists tid, _. rewrite lookup_fmap, Ht. split; [done|].
      cbn. rewrite decide_False by congruence. done.
  - intros tid1 tid2 t1' t2' H1 H2 E.
    apply lookup_fmap_Some in H1 as (t1 & <- & H1).
    apply lookup_fmap_Some in H2 as (t2 & <- & H2).
    apply (Hu tid1 tid2 t1 t2 H1 H2).
    repeat case_decide; rewrite ?Hid in E; congruence.
Qed.

Lemma submit_effect_mirrors (application_data : ApplicationCreate) (tenant_id : string)
    (p : property) (c : nat) (d : database) :
  escrow_mirrors d →
  escrow_mirrors (submit_effect 3 application_data tenant_id p c d).
Proof.
  intros [Hs Hp Hu]. unfold submit_effect.
  pose proof (fresh_key_unused (applications d)) as Hfa.
  pose proof (fresh_key_unused (transactions d)) as Hft.
  split;
    cbn [set_properties set_transactions set_applications applications transactions].
  - intros tid t Ht. apply lookup_insert_Some in Ht as [[<- <-]|[Hne Ht]].
    + eexists. rewrite lookup_insert_eq. split; [done|]. reflexivity.
    + destruct (Hs tid t Ht) as (a & Ha & Hst). exists a.
      rewrite lookup_insert_ne; [done|]. intros E. congruence.
  - intros id a Ha. apply lookup_insert_Some in Ha as [[<- <-]|[Hne Ha]].
    + eexists _, _. rewrite lookup_insert_eq. done.
    + destruct (Hp id a Ha) as (tid & t & Ht & E). exists tid, t.
      rewrite lookup_insert_ne; [done|]. intros E'. congruence.
  - intros tid1 tid2 t1 t2 H1 H2 E.
    apply lookup_insert_Some in H1 as [[<- <-]|[Hne1 H1]];
      apply lookup_insert_Some in H2 as [[<- <-]|[Hne2 H2]]; [done| | |by eapply Hu].
    + destruct (Hs _ _ H2) as (a & Ha & _). cbn in E. congruence.
    + destruct (Hs _ _ H1) as (a & Ha & _). cbn in E. congruence.
Qed.

Lemma escrow_mirrors_set_properties
    (f : gmap string property → gmap string property) (d : database) :
  escrow_mirrors d → escrow_mirrors (set_properties f d).
Proof. intros [Hs Hp Hu]. by split. Qed.

Lemma applications_of_empty (tenant_id property_id : string) (d : database) :
  (∀ id a, applications d !! id = Some a →
           ¬ (app_tenant_id a = tenant_id ∧ app_property_id a = property_id)) →
  map_to_list (applications_of tenant_id property_id d) = [].
Proof.
  intros Hnone.
  destruct (map_to_list (applications_of tenant_id property_id d)) eqn:E; [done|].
  assert (Hne : map_to_list (applications_of tenant_id property_id d) ≠ [])
    by (rewrite E; discriminate).
  apply applications_of_nonempty in Hne as (id & a & Ha & Ht & Hp).
  destruct (Hnone id a Ha). done.
Qed.

Lemma after_mirrors (w : world) (c : lifecycle_call) :
  storage_available w → escrow_mirrors (db w) →
  storage_available (after w c) ∧ escrow_mirrors (db (after w c)).
Proof.
  destruct w as [d fs k]. unfold storage_available. cbn [faults db].
  intros -> Hinv. destruct c as [data user|id user|id data user]; cbn [after].
  - rewrite create_application_run.
    destruct (gate _) as [[|]|[code detail|msg]]; cbn [snd faults db]; try done.
    destruct (properties d !! _) as [p|]; cbn [snd faults db]; try done.
    destruct (map_to_list _); cbn [snd faults db]; try done.
    split; [done|]. by apply submit_effect_mirrors.
  - rewrite approve_application_run.
    destruct (applications d !! id) as [a|]; cbn [snd faults db]; try done.
    destruct (not_owner _ _); cbn [snd faults db]; try done.
    destruct (bool_decide _); cbn [snd faults db]; try done.
    split; [done|]. unfold approve_effect.
    apply escrow_mirrors_set_properties.
    by apply (review_effect_mirrors id "approved" "released").
  - rewrite reject_application_run.
    destruct (applications d !! id) as [a|]; cbn [snd faults db]; try done.
    destruct (not_owner _ _); cbn [snd faults db]; try done.
    destruct (bool_decide _); cbn [snd faults db]; try done.
    split; [done|]. unfold reject_effect.
    by apply (review_effect_mirrors id "rejected" "refunded").
Qed.

Lemma world_submitted_flaky_db :
  db world_submitted_flaky = db (after world_completed (Submit flat_request tenant1)).
Proof. vm_compute. reflexivity. Qed.

(** ** The claims *)

(** C3 (as the code has it). With the store available, [create_application]
    fails with DuplicateApplication exactly when the tenant passes the profile
    gate, the property exists and some application, whatever its status,
    already exists for the (tenant, property) pair. *)
Theorem duplicate_iff_any_application (w : world)
    (application_data : ApplicationCreate) (current_user : identity) :
  storage_available w →
  (create_application application_data current_user w).1 = Raise DuplicateApplication
  ↔ passes_gate (db w) (cu_id current_user) ∧
    is_Some (properties (db w) !! ac_property_id application_data) ∧
    ∃ id a, applications (db w) !! id = Some a ∧
            app_tenant_id a = cu_id current_user ∧
            app_property_id a = ac_property_id application_data.
Proof.
  destruct w as [d fs c]. unfold storage_available, passes_gate. cbn [faults db].
  intros ->. rewrite create_application_run.
  rewrite <- applications_of_nonempty.
  destruct (gate (tenants d !! cu_id current_user)) as [[|]|[code detail|msg]] eqn:Hg;
    cbn [fst]; try (split; [discriminate | intros [[=] _]]).
  2: { by apply gate_raises in Hg as [msg [=]]. }
  destruct (properties d !! ac_property_id application_data) as [p|];
    cbn [fst]; [|split; [discriminate | intros (_ & [? [=]] & _)]].
  destruct (map_to_list _) as [|x rest]; cbn [fst].
  - split; [discriminate | intros (_ & _ & H); done].
  - split; [|done]. intros _. split; [done|]. split; [by eexists | done].
Qed.

(** C4. A tenant whose stored profile completion is below 100 cannot submit:
    whatever the store does, the call fails and the store is left as it was
    (no Application, no EscrowTransaction, no counter change); and unless the
    read of the profile itself raises, the failure is ProfileIncomplete. *)
Theorem incomplete_profile_blocks_submit (w : world)
    (application_data : ApplicationCreate) (current_user : identity)
    (p : dict) (completion : Z) :
  tenants (db w) !! cu_id current_user = Some p →
  get p "profile_completion" = VInt completion →
  completion < 100 →
  db (create_application application_data current_user w).2 = db w ∧
  (∃ e, (create_application application_data current_user w).1 = Raise e) ∧
  (¬ next_call_raises w →
   (create_application application_data current_user w).1 = Raise ProfileIncomplete).
Proof.
  intros Hp Hc Hlt. destruct w as [d fs c]. cbn [db] in Hp.
  assert (Hgate : gate (tenants d !! cu_id current_user) = Return true).
  { rewrite Hp. cbn [gate]. rewrite Hc. cbn [py_lt]. f_equal. by apply Z.ltb_lt. }
  destruct fs as [|[msg|] fs'].
  - rewrite create_application_gate by done. cbn [fst snd db]. eauto.
  - unfold create_application. run. split; [done|]. split; [eauto|].
    intros Hno. destruct Hno. by exists msg.
  - rewrite create_application_gate by done. cbn [fst snd db]. eauto.
Qed.

(** C5. An application already approved or rejected cannot be reviewed again:
    approve and reject by the landlord who owns the property both fail with
    InvalidTransition and leave the world, hence the Application, its
    EscrowTransaction and the Property, as they were. *)
Theorem terminal_application_single_fire (w : world) (application_id : string)
    (rejection_data : ApplicationReject) (current_user : identity)
    (a : application) :
  storage_available w →
  applications (db w) !! application_id = Some a →
  terminal (app_status a) →
  owns (db w) (cu_id current_user) a →
  approve_application application_id current_user w
    = (Raise (InvalidTransition (app_status a)), w) ∧
  reject_application application_id rejection_data current_user w
    = (Raise (InvalidTransition (app_status a)), w).
Proof.
  destruct w as [d fs c]. unfold storage_available. cbn [faults db].
  intros -> Ha Hterm Hown.
  apply not_owner_owns in Hown. apply pending_not_terminal in Hterm.
  rewrite approve_application_run, reject_application_run, Ha, Hown.
  by rewrite (bool_decide_eq_false_2 _ Hterm).
Qed.

(** C6. Approving a submitted or under-review application as the landlord who
    owns its property succeeds: the Application becomes approved, with the
    reviewer and the review time recorded and nothing else changed; each of
    its escrow transactions becomes released; its Property becomes rented. *)
Theorem approve_pending_application (w : world) (application_id : string)
    (current_user : identity) (a : application) :
  storage_available w →
  applications (db w) !! application_id = Some a →
  pending (app_status a) →
  owns (db w) (cu_id current_user) a →
  let r := approve_application application_id current_user w in
  r.1 = Return "Application approved successfully" ∧
  (∃ a', applications (db r.2) !! application_id = Some a' ∧
         a' = approved (isoformat (clock w)) (cu_id current_user) a ∧
         app_status a' = "approved" ∧
         app_reviewed_by a' = Some (cu_id current_user) ∧
         app_reviewed_at a' = Some (isoformat (clock w))) ∧
  (∀ tid t, transactions (db w) !! tid = Some t →
            txn_application_id t = application_id →
            ∃ t', transactions (db r.2) !! tid = Some t' ∧
                  txn_status t' = "released" ∧ txn_amount t' = txn_amount t) ∧
  (∃ p', properties (db r.2) !! app_property_id a = Some p' ∧
         prop_status p' = "rented").
Proof.
  destruct w as [d fs c]. unfold storage_available. cbn [faults db clock].
  intros -> Ha Hpend Hown. cbv zeta.
  pose proof Hown as (p & Hp & Hl).
  apply not_owner_owns in Hown.
  rewrite approve_application_run, Ha, Hown, (bool_decide_eq_true_2 _ Hpend).
  cbn [fst snd db]. unfold approve_effect.
  cbn [set_properties set_transactions set_applications
       applications transactions properties].
  split; [done|]. split; [|split].
  - eexists. rewrite lookup_alter_eq, Ha. cbn. done.
  - intros tid t Ht Hid. eexists. rewrite lookup_fmap, Ht. cbn.
    rewrite decide_True by done. done.
  - eexists. rewrite lookup_alter_eq, Hp. cbn. done.
Qed.

(** C7. Rejecting a submitted or under-review application as the landlord who
    owns its property succeeds: the Application becomes rejected with the
    reason and reason code stored; each of its escrow transactions becomes
    refunded; the properties (status and counters) are untouched. *)
Theorem reject_pending_application (w : world) (application_id : string)
    (rejection_data : ApplicationReject) (current_user : identity)
    (a : application) :
  storage_available w →
  applications (db w) !! application_id = Some a →
  pending (app_status a) →
  owns (db w) (cu_id current_user) a →
  let r := reject_application application_id rejection_data current_user w in
  r.1 = Return "Application rejected" ∧
  (∃ a', applications (db r.2) !! application_id = Some a' ∧
         app_status a' = "rejected" ∧
         app_rejection_reason a' = Some (ar_reason rejection_data) ∧
         app_reason_code a' = Some (ar_reason_code rejection_data) ∧
         app_reviewed_by a' = Some (cu_id current_user)) ∧
  (∀ tid t, transactions (db w) !! tid = Some t →
            txn_application_id t = application_id →
            ∃ t', transactions (db r.2) !! tid = Some t' ∧
                  txn_status t' = "refunded" ∧ txn_amount t' = txn_amount t) ∧
  properties (db r.2) = properties (db w).
Proof.
  destruct w as [d fs c]. unfold storage_available. cbn [faults db clock].
  intros -> Ha Hpend Hown. cbv zeta.
  apply not_owner_owns in Hown.
  rewrite reject_application_run, Ha, Hown, (bool_decide_eq_true_2 _ Hpend).
  cbn [fst snd db]. unfold reject_effect.
  cbn [set_transactions set_applications applications transactions properties].
  split; [done|]. split; [|split; [|done]].
  - eexists. rewrite lookup_alter_eq, Ha. cbn. done.
  - intros tid t Ht Hid. eexists. rewrite lookup_fmap, Ht. cbn.
    rewrite decide_True by done. done.
Qed.

(** C10. Error precedence in approve and reject: an application that does not
    exist yields NotFound whatever else holds; for one that exists, a caller
    who does not own its property gets Forbidden whatever the application's
    status, terminal included, and never InvalidTransition; in both cases the
    world is left as it was. *)
Theorem review_error_precedence (w : world) (application_id : string)
    (rejection_data : ApplicationReject) (current_user : identity) :
  storage_available w →
  (applications (db w) !! application_id = None →
   approve_application application_id current_user w = (Raise NotFound, w) ∧
   reject_application application_id rejection_data current_user w
     = (Raise NotFound, w)) ∧
  (∀ a, applications (db w) !! application_id = Some a →
        ¬ owns (db w) (cu_id current_user) a →
        approve_application application_id current_user w
          = (Raise (Forbidden "approve"), w) ∧
        reject_application application_id rejection_data current_user w
          = (Raise (Forbidden "reject"), w) ∧
        Forbidden "approve" ≠ InvalidTransition (app_status a) ∧
        Forbidden "reject" ≠ InvalidTransition (app_status a)).
Proof.
  destruct w as [d fs c]. unfold storage_available. cbn [faults db].
  intros ->. rewrite approve_application_run, reject_application_run. split.
  - intros ->. done.
  - intros a -> Hown.
    destruct (not_owner (properties d !! app_property_id a) (cu_id current_user))
      eqn:Hno.
    + repeat split; discriminate.
    + by apply not_owner_owns in Hno.
Qed.

(** C1 (as the code has it). Starting from a store in which every escrow
    transaction mirrors its application, any sequence of submit, approve and
    reject calls during which no store call fails leaves every escrow
    transaction mirroring its application: submitted/under_review with held,
    approved with released, rejected with refunded. *)
Theorem escrow_mirrors_application (w : world) (calls : list lifecycle_call) :
  storage_available w → escrow_mirrors (db w) →
  escrow_mirrors (db (foldl after w calls)).
Proof.
  revert w. induction calls as [|c calls IH]; intros w Hav Hinv; [done|].
  cbn [foldl]. destruct (after_mirrors w c Hav Hinv) as [Hav' Hinv']. by apply IH.
Qed.

(** C1, as stated, fails: when the store fails between the two updates of an
    approval, the application is approved while its escrow is still held. *)
Lemma approve_interrupted_diverges :
  escrow_mirrors (db world_submitted_flaky) ∧
  ¬ escrow_mirrors (db (after world_submitted_flaky (Approve "0" landlord1))) ∧
  ∃ a t,
    applications (db (after world_submitted_flaky (Approve "0" landlord1))) !! "0"
      = Some a ∧
    transactions (db (after world_submitted_flaky (Approve "0" landlord1))) !! "0"
      = Some t ∧
    txn_application_id t = "0" ∧ app_status a = "approved" ∧ txn_status t = "held".
Proof.
  split; [|split].
  - rewrite world_submitted_flaky_db.
    apply after_mirrors; [vm_compute; reflexivity|].
    apply escrow_mirrors_no_applications; vm_compute; reflexivity.
  - intros [Hs _ _].
    destruct (Hs "0" (new_escrow "0" flat_request "tenant-1" flat "2"))
      as (a & Ha & Hst).
    + vm_compute. reflexivity.
    + vm_compute in Ha. injection Ha as <-. vm_compute in Hst. discriminate.
  - eexists _, _. vm_compute. repeat split.
Qed.

Lemma escrow_mirrors_application_witness :
  escrow_mirrors
    (db (foldl after world_completed
           [Submit flat_request tenant1; Approve "0" landlord1;
            Reject "0" not_eligible landlord1; Submit flat_request tenant1])).
Proof.
  apply escrow_mirrors_application.
  - vm_compute. reflexivity.
  - apply escrow_mirrors_no_applications; vm_compute; reflexivity.
Defined.

(** * Properties of the rest of the handlers *)

Section hoare_rules.
Context {A B : Type}.
Implicit Types (P E : database → Prop).

Lemma hoare_ret P (a : A) (Q : A → database → Prop) E :
  (∀ d, P d → Q a d) → hoare P (ret a) Q E.
Proof. intros H w HP. by apply H. Qed.

Lemma hoare_raise P (e : exn) (Q : A → database → Prop) E :
  (∀ d, P d → E d) → hoare P (raise e) Q E.
Proof. intros H w HP. by apply H. Qed.

Lemma hoare_lift P (o : outcome A) (Q : A → database → Prop) E :
  (∀ d, P d → match o with Return a => Q a d | Raise _ => E d end) →
  hoare P (lift o) Q E.
Proof. intros H w HP. specialize (H _ HP). unfold lift. by destruct o. Qed.

Lemma hoare_bind P (m : M A) (k : A → M B) (R : A → database → Prop)
    (Q : B → database → Prop) E :
  hoare P m R E → (∀ a, hoare (R a) (k a) Q E) → hoare P (bind m k) Q E.
Proof.
  intros Hm Hk w HP. unfold bind. specialize (Hm w HP).
  destruct (m w) as [[a|e] w']; [|done]. by apply Hk.
Qed.

Lemma hoare_execute P (q : database → outcome A * database)
    (Q : A → database → Prop) E :
  (∀ d, P d → E d) →
  (∀ d, P d → match q d with
              | (Return a, d') => Q a d'
              | (Raise _, d') => E d'
              end) →
  hoare P (execute q) Q E.
Proof.
  intros HE Hq [d fs c] HP. unfold execute. cbn [faults db clock] in *.
  specialize (Hq d HP).
  destruct fs as [|[msg|] fs']; cbn [db]; auto; by destruct (q d) as [[a|e] d'].
Qed.

Lemma hoare_try_except P (code : Z) (prefix : string) (m : M A)
    (Q : A → database → Prop) E :
  hoare P m Q E → hoare P (try_except code prefix m) Q E.
Proof.
  intros Hm w HP. unfold try_except. specialize (Hm w HP).
  by destruct (m w) as [[a|[? ?|msg]] w'].
Qed.

Lemma hoare_consequence P P' (m : M A) (Q Q' : A → database → Prop) E E' :
  hoare P' m Q' E' → (∀ d, P d → P' d) → (∀ a d, Q' a d → Q a d) →
  (∀ d, E' d → E d) → hoare P m Q E.
Proof.
  intros Hm HP HQ HE w Hw. specialize (Hm w (HP _ Hw)).
  destruct (m w) as [[a|e] w']; auto.
Qed.
End hoare_rules.

Lemma hoare_datetime_now (P : database → Prop) (Q : string → database → Prop)
    (E : database → Prop) :
  (∀ t d, P d → Q t d) → hoare P datetime_now Q E.
Proof. intros H w HP. by apply H. Qed.

Lemma hoare_get_current_user (P : database → Prop) (token_user : option string) :
  hoare P (get_current_user token_user) (λ _, P) P.
Proof.
  assert (H : hoare P
    (bind (execute (λ d, (Return token_user, d)))
       (λ user_response : option string,
          match user_response with
          | None => raise credentials_exception
          | Some user_id =>
              bind (execute (select_single users user_id))
                (λ response : option user,
                   match response with
                   | None => raise credentials_exception
                   | Some data => ret (Identity user_id (usr_user_type data))
                   end)
          end)) (λ _, P) P).
  { apply (hoare_bind _ _ _ (λ _, P)); [by apply hoare_execute|].
    intros [user_id|]; [|by apply hoare_raise].
    apply (hoare_bind _ _ _ (λ _, P)); [by apply hoare_execute|].
    intros [u|]; [by apply hoare_ret | by apply hoare_raise]. }
  intros w HP. specialize (H w HP). unfold get_current_user.
  by destruct (bind _ _ w) as [[a|e] w'].
Qed.

(** Handlers that only read keep any property of the store. *)
Ltac read_only :=
  repeat first
    [ apply hoare_try_except
    | match goal with
      | |- hoare ?P (bind _ _) _ _ => apply (hoare_bind _ _ _ (λ _, P)); [|intros ?]
      end
    | apply hoare_execute;
      [ done
      | intros ? ?;
        unfold select_single, select_applications_for_tenant,
          select_applications_for_landlord; done ]
    | apply hoare_ret; done
    | apply hoare_raise; done
    | match goal with
      | |- hoare _ (match ?x with _ => _ end) _ _ => destruct x
      end ].

Lemma hoare_get_applications (P : database → Prop) (current_user : identity) :
  hoare P (get_applications current_user) (λ _, P) P.
Proof. unfold get_applications. read_only. Qed.

Lemma hoare_get_tenant_profile (P : database → Prop) (current_user : identity) :
  hoare P (get_tenant_profile current_user) (λ _, P) P.
Proof. unfold get_tenant_profile. read_only. Qed.

Lemma hoare_get_profile_status (P : database → Prop) (current_user : identity) :
  hoare P (get_profile_status current_user) (λ _, P) P.
Proof. unfold get_profile_status. read_only. Qed.

Lemma hoare_db {A} (m : M A) (w : world) :
  hoare (λ d, d = db w) m (λ _ d, d = db w) (λ d, d = db w) → db (m w).2 = db w.
Proof. intros H. specialize (H w eq_refl). by destruct (m w) as [[a|e] w']. Qed.

(** X22. Whatever fails, [get_current_user], [get_applications],
    [get_tenant_profile] and [get_profile_status] leave the store as it
    was. *)
Theorem reads_leave_the_store (w : world) (current_user : identity)
    (token_user : option string) :
  db (get_current_user token_user w).2 = db w ∧
  db (get_applications current_user w).2 = db w ∧
  db (get_tenant_profile current_user w).2 = db w ∧
  db (get_profile_status current_user w).2 = db w.
Proof.
  repeat split; apply hoare_db.
  - apply hoare_get_current_user.
  - apply hoare_get_applications.
  - apply hoare_get_tenant_profile.
  - apply hoare_get_profile_status.
Qed.

Lemma get_current_user_run (token_user : option string) (d : database) (c : nat) :
  get_current_user token_user (World d [] c) =
  (match token_user with
   | Some user_id =>
       match users d !! user_id with
       | Some u => Return (Identity user_id (usr_user_type u))
       | None => Raise credentials_exception
       end
   | None => Raise credentials_exception
   end, World d [] c).
Proof.
  unfold get_current_user. run.
  destruct token_user as [user_id|]; [|reflexivity]. run.
  destruct (users d !! user_id); reflexivity.
Qed.

(** X1. [get_current_user] fails with 401 "Could not validate credentials"
    and nothing else, whatever went wrong; with the store available it
    succeeds exactly when the token belongs to a user who has a row, and
    hands over that user's id and stored type. *)
Theorem get_current_user_outcomes (w : world) (token_user : option string) :
  (∀ e, (get_current_user token_user w).1 = Raise e → e = credentials_exception) ∧
  (storage_available w →
   get_current_user token_user w =
   (match token_user with
    | Some user_id =>
        match users (db w) !! user_id with
        | Some u => Return (Identity user_id (usr_user_type u))
        | None => Raise credentials_exception
        end
    | None => Raise credentials_exception
    end, w)).
Proof.
  split.
  - intros e. unfold get_current_user.
    destruct (bind _ _ w) as [[a|e'] w']; cbn [fst]; congruence.
  - destruct w as [d fs c]. unfold storage_available. cbn [faults db].
    intros ->. apply get_current_user_run.
Qed.

(** X2. The routes of applications.py check the caller's stored type before
    anything else: submitting is the tenant handler for a tenant and 403
    "Only tenants" for anyone else; approving and rejecting are the landlord
    handlers for a landlord and 403 "Only landlords" for anyone else, with
    the world left as it was. *)
Theorem routes_enforce_roles (w : world) (user_id : string) (u : user)
    (application_data : ApplicationCreate) (application_id : string)
    (rejection_data : ApplicationReject) :
  storage_available w →
  users (db w) !! user_id = Some u →
  route_create_application (Some user_id) application_data w
  = (if decide (usr_user_type u = "tenant")
     then create_application application_data (Identity user_id "tenant") w
     else (Raise only_tenants, w)) ∧
  route_approve_application (Some user_id) application_id w
  = (if decide (usr_user_type u = "landlord")
     then approve_application application_id (Identity user_id "landlord") w
     else (Raise only_landlords, w)) ∧
  route_reject_application (Some user_id) application_id rejection_data w
  = (if decide (usr_user_type u = "landlord")
     then reject_application application_id rejection_data
            (Identity user_id "landlord") w
     else (Raise only_landlords, w)).
Proof.
  destruct w as [d fs c]. unfold storage_available. cbn [faults db].
  intros -> Hu.
  unfold route_create_application, route_approve_application,
    route_reject_application, bind.
  rewrite get_current_user_run, Hu.
  unfold get_current_tenant, get_current_landlord. cbn [cu_user_type].
  repeat split.
  - destruct (decide (usr_user_type u = "tenant")) as [E|E].
    + rewrite bool_decide_eq_false_2 by (intros ?; done). unfold ret. by rewrite E.
    + by rewrite bool_decide_eq_true_2.
  - destruct (decide (usr_user_type u = "landlord")) as [E|E].
    + rewrite bool_decide_eq_false_2 by (intros ?; done). unfold ret. by rewrite E.
    + by rewrite bool_decide_eq_true_2.
  - destruct (decide (usr_user_type u = "landlord")) as [E|E].
    + rewrite bool_decide_eq_false_2 by (intros ?; done). unfold ret. by rewrite E.
    + by rewrite bool_decide_eq_true_2.
Qed.

Lemma routes_enforce_roles_witness :
  route_create_application (Some "landlord-1") flat_request world_with_landlord
  = (Raise only_tenants, world_with_landlord) ∧
  route_approve_application (Some "tenant-1") "0" world_with_landlord
  = (Raise only_landlords, world_with_landlord) ∧
  route_approve_application (Some "landlord-1") "0" world_with_landlord
  = approve_application "0" landlord1 world_with_landlord.
Proof.
  pose proof (routes_enforce_roles world_with_landlord "landlord-1"
    (User "bola@example.com" (Some "+2348000000000") "Bola Ade" "landlord" 50 "partial")
    flat_request "0" not_eligible) as (H1 & H2 & _);
    [vm_compute; reflexivity | vm_compute; reflexivity |].
  pose proof (routes_enforce_roles world_with_landlord "tenant-1"
    (User "ada@example.com" None "Ada Obi" "tenant" 80 "approved")
    flat_request "0" not_eligible) as (_ & H3 & _);
    [vm_compute; reflexivity | vm_compute; reflexivity |].
  split; [exact H1|]. split; [exact H3 | exact H2].
Defined.

Lemma get_applications_run (current_user : identity) (d : database) (c : nat) :
  get_applications current_user (World d [] c) =
  (if bool_decide (cu_user_type current_user = "tenant") then
     Return (TenantListing (tenant_rows (cu_id current_user) d))
   else if bool_decide (cu_user_type current_user = "landlord") then
     Return (LandlordListing (landlord_rows (cu_id current_user) d))
   else Raise invalid_user_type, World d [] c).
Proof.
  unfold get_applications.
  destruct (bool_decide (cu_user_type current_user = "tenant")); [reflexivity|].
  destruct (bool_decide (cu_user_type current_user = "landlord")); reflexivity.
Qed.

Lemma tenant_rows_lookup (user_id : string) (d : database) (id : string)
    (a : application) (embedded : option (property * option user)) :
  tenant_rows user_id d !! id = Some (a, embedded) ↔
  applications d !! id = Some a ∧ app_tenant_id a = user_id ∧
  embedded = (λ p, (p, users d !! prop_landlord_id p))
             <$> properties d !! app_property_id a.
Proof.
  unfold tenant_rows. rewrite lookup_fmap_Some. split.
  - intros (a' & [= <- <-] & Hf). apply map_lookup_filter_Some in Hf as [Ha Ht]. done.
  - intros (Ha & Ht & ->). exists a. split; [done|].
    apply map_lookup_filter_Some. done.
Qed.

Lemma landlord_rows_lookup (user_id : string) (d : database) (id : string)
    (a : application) (p : property) (tenant : option user) :
  landlord_rows user_id d !! id = Some (a, p, tenant) ↔
  applications d !! id = Some a ∧ properties d !! app_property_id a = Some p ∧
  prop_landlord_id p = user_id ∧ tenant = users d !! app_tenant_id a.
Proof.
  unfold landlord_rows. rewrite lookup_omap_Some. split.
  - intros (a' & Hrow & Ha).
    destruct (properties d !! app_property_id a') as [p'|] eqn:Hp; [|done].
    destruct (decide (prop_landlord_id p' = user_id)); [|done].
    injection Hrow as <- <- <-. done.
  - intros (Ha & Hp & Hl & ->). exists a. rewrite Hp, decide_True by done. done.
Qed.

Lemma landlord_rows_dom (user_id : string) (d : database) (id : string) :
  id ∈ dom (landlord_rows user_id d) ↔
  ∃ a, applications d !! id = Some a ∧ owns d user_id a.
Proof.
  rewrite elem_of_dom. unfold is_Some, owns. split.
  - intros ([[a p] t] & H). apply landlord_rows_lookup in H as (Ha & Hp & Hl & _).
    eauto.
  - intros (a & Ha & p & Hp & Hl). eexists (a, p, _).
    apply landlord_rows_lookup. done.
Qed.

(** X3. [get_applications] shows a tenant exactly the applications with the
    tenant's id, each with its property (and the property's landlord)
    embedded; it shows a landlord exactly the applications whose property
    exists and is the landlord's; any other user type gets 403 "Invalid user
    type". *)
Theorem get_applications_by_role (w : world) (current_user : identity) :
  storage_available w →
  (cu_user_type current_user = "tenant" →
   ∃ rows, get_applications current_user w = (Return (TenantListing rows), w) ∧
     ∀ id a embedded,
       rows !! id = Some (a, embedded) ↔
       applications (db w) !! id = Some a ∧ app_tenant_id a = cu_id current_user ∧
       embedded = (λ p, (p, users (db w) !! prop_landlord_id p))
                  <$> properties (db w) !! app_property_id a) ∧
  (cu_user_type current_user = "landlord" →
   ∃ rows, get_applications current_user w = (Return (LandlordListing rows), w) ∧
     ∀ id a p tenant,
       rows !! id = Some (a, p, tenant) ↔
       applications (db w) !! id = Some a ∧
       properties (db w) !! app_property_id a = Some p ∧
       prop_landlord_id p = cu_id current_user ∧
       tenant = users (db w) !! app_tenant_id a) ∧
  (cu_user_type current_user ≠ "tenant" → cu_user_type current_user ≠ "landlord" →
   get_applications current_user w = (Raise invalid_user_type, w)).
Proof.
  destruct w as [d fs c]. unfold storage_available. cbn [faults db].
  intros ->. rewrite get_applications_run. repeat split.
  - intros E. rewrite bool_decide_eq_true_2 by done. eexists. split; [done|].
    intros. apply tenant_rows_lookup.
  - intros E. rewrite bool_decide_eq_false_2 by (rewrite E; discriminate).
    rewrite bool_decide_eq_true_2 by done. eexists. split; [done|].
    intros. apply landlord_rows_lookup.
  - intros E1 E2. by rewrite !bool_decide_eq_false_2.
Qed.

(** X4. A landlord can review what it can list: an application is in the
    landlord's listing exactly when approving it (and likewise rejecting it)
    either succeeds or fails with InvalidTransition, that is, is neither
    NotFound nor Forbidden. *)
Theorem landlord_reviews_what_it_lists (w : world) (current_user : identity)
    (l : listing) (application_id : string) (rejection_data : ApplicationReject) :
  storage_available w →
  cu_user_type current_user = "landlord" →
  (get_applications current_user w).1 = Return l →
  (application_id ∈ listed l ↔
   (approve_application application_id current_user w).1
     = Return "Application approved successfully" ∨
   ∃ status, (approve_application application_id current_user w).1
             = Raise (InvalidTransition status)) ∧
  (application_id ∈ listed l ↔
   (reject_application application_id rejection_data current_user w).1
     = Return "Application rejected" ∨
   ∃ status, (reject_application application_id rejection_data current_user w).1
             = Raise (InvalidTransition status)).
Proof.
  destruct w as [d fs c]. unfold storage_available. cbn [faults db].
  intros -> E. rewrite get_applications_run.
  rewrite bool_decide_eq_false_2 by (rewrite E; discriminate).
  rewrite bool_decide_eq_true_2 by done. cbn [fst]. intros [= <-]. cbn [listed].
  rewrite landlord_rows_dom, approve_application_run, reject_application_run.
  destruct (applications d !! application_id) as [a|].
  - destruct (not_owner _ _) eqn:Hno; cbn [fst].
    + assert (¬ owns d (cu_id current_user) a) as Hown.
      { intros H. apply not_owner_owns in H. congruence. }
      split; (split; [intros (a' & [= <-] & H); done
                     | intros [[=] | [status [=]]]]).
    + apply not_owner_owns in Hno.
      destruct (bool_decide (pending (app_status a))); cbn [fst];
        split; (split; [eauto | eauto]).
  - cbn [fst]. split; (split; [intros (a & [=] & _) | intros [[=] | [status [=]]]]).
Qed.

(** ** Dictionaries and completion *)

Lemma get_insert_ne (d : dict) (k k' : string) (v : value) :
  k ≠ k' → get (<[k := v]> d) k' = get d k'.
Proof. intros H. unfold get. by rewrite lookup_insert_ne. Qed.

Lemma get_insert_eq (d : dict) (k : string) (v : value) : get (<[k := v]> d) k = v.
Proof. unfold get. by rewrite lookup_insert_eq. Qed.

Lemma get_union_l (upd row : dict) (k : string) (v : value) :
  upd !! k = Some v → get (upd ∪ row) k = v.
Proof. intros H. unfold get. by rewrite (lookup_union_Some_l _ _ _ _ H). Qed.

Lemma get_union_r (upd row : dict) (k : string) :
  upd !! k = None → get (upd ∪ row) k = get row k.
Proof. intros H. unfold get. by rewrite lookup_union_r. Qed.

(** What decides the completion of a row. *)
Lemma completion_ext (p p' : dict) :
  get p' "budget" = get p "budget" →
  get p' "preferred_location" = get p "preferred_location" →
  p' !! "documents" = p !! "documents" →
  get p' "onboarding_completed" = get p "onboarding_completed" →
  calculate_profile_completion p' = calculate_profile_completion p.
Proof.
  intros Hb Hl Hd Ho. unfold calculate_profile_completion, get_default.
  by rewrite Hb, Hl, Hd, Ho.
Qed.

Lemma completion_insert_stored (p : dict) (v : value) :
  calculate_profile_completion (<["profile_completion" := v]> p)
  = calculate_profile_completion p.
Proof.
  apply completion_ext; rewrite ?get_insert_ne by done; try done.
  by rewrite lookup_insert_ne.
Qed.

Lemma step3_insert_stored (p : dict) (v : value) :
  step3 (<["profile_completion" := v]> p) = step3 p.
Proof. unfold step3, present. by rewrite get_insert_ne. Qed.

Lemma completion_100_iff (p : dict) :
  (100 <=? calculate_profile_completion p) = step3 p.
Proof.
  rewrite completion_is_floor. unfold step_reached.
  destruct (step3 p), (step2 p), (step1 p); reflexivity.
Qed.

Lemma completion_lt_100 (p : dict) :
  (calculate_profile_completion p <? 100) = negb (step3 p).
Proof.
  rewrite completion_is_floor. unfold step_reached.
  destruct (step3 p), (step2 p), (step1 p); reflexivity.
Qed.


(** The typed update writes four keys only. *)
Lemma lookup_set_field_ne {A} (k k' : string) (field : option (option A))
    (to_value : A → value) (d : dict) :
  k ≠ k' → set_field k field to_value d !! k' = d !! k'.
Proof.
  intros H. unfold set_field. destruct field as [[x|]|]; by rewrite ?lookup_insert_ne.
Qed.

Lemma exclude_unset_other (profile_data : TenantProfileUpdate) (k : string) :
  k ∉ ["budget"; "preferred_location"; "move_in_date"; "preferences"] →
  exclude_unset profile_data !! k = None.
Proof.
  rewrite !not_elem_of_cons. intros (? & ? & ? & ? & _).
  unfold exclude_unset. by rewrite !lookup_set_field_ne.
Qed.

Lemma update_tenant_profile_run (profile_data : dict) (current_user : identity)
    (d : database) (c : nat) (row : dict) :
  tenants d !! cu_id current_user = Some row →
  update_tenant_profile profile_data current_user (World d [] c) =
  (Return (<["profile_completion" :=
               VInt (calculate_profile_completion (profile_data ∪ row))]>
             (profile_data ∪ row)),
   World (set_tenants
            (alter (λ r, <["profile_completion" :=
                     VInt (calculate_profile_completion (profile_data ∪ row))]> r)
               (cu_id current_user))
            (set_tenants (alter (λ r, profile_data ∪ r) (cu_id current_user)) d))
         [] c).
Proof.
  intros Hrow. unfold update_tenant_profile. run. rewrite Hrow.
  cbn [option_list fmap option_fmap option_map]. run. reflexivity.
Qed.

Lemma update_tenant_profile_missing (profile_data : dict) (current_user : identity)
    (d : database) (c : nat) :
  tenants d !! cu_id current_user = None →
  update_tenant_profile profile_data current_user (World d [] c) =
  (Raise (HTTPException 400 "Failed to update profile"),
   World (set_tenants (alter (λ r, profile_data ∪ r) (cu_id current_user)) d)
         [] c).
Proof.
  intros Hrow. unfold update_tenant_profile. run. rewrite Hrow. reflexivity.
Qed.

Lemma set_tenants_missing (f : dict → dict) (id : string) (d : database) :
  tenants d !! id = None → set_tenants (alter f id) d = d.
Proof.
  intros H. destruct d. unfold set_tenants. cbn in *. by rewrite alter_id'.
Qed.

(** X13. A successful [update_tenant_profile] with a typed payload stores
    the row it returns; in it the stored completion is the computed one, and
    only budget, preferred location, move-in date, preferences and the
    completion can differ from before; no other tenant and no other table
    changes. *)
Theorem typed_update_effect (w : world) (profile_data : TenantProfileUpdate)
    (current_user : identity) (row : dict) :
  storage_available w →
  tenants (db w) !! cu_id current_user = Some row →
  let r := update_tenant_profile (exclude_unset profile_data) current_user w in
  let stored := <["profile_completion" :=
                  VInt (calculate_profile_completion
                          (exclude_unset profile_data ∪ row))]>
                (exclude_unset profile_data ∪ row) in
  r.1 = Return stored ∧
  tenants (db r.2) !! cu_id current_user = Some stored ∧
  get stored "profile_completion" = VInt (calculate_profile_completion stored) ∧
  (∀ k, k ∉ ["budget"; "preferred_location"; "move_in_date"; "preferences";
             "profile_completion"] → stored !! k = row !! k) ∧
  (∀ id, id ≠ cu_id current_user → tenants (db r.2) !! id = tenants (db w) !! id) ∧
  users (db r.2) = users (db w) ∧ landlords (db r.2) = landlords (db w) ∧
  properties (db r.2) = properties (db w) ∧
  applications (db r.2) = applications (db w) ∧
  transactions (db r.2) = transactions (db w).
Proof.
  destruct w as [d fs c]. unfold storage_available. cbn [faults db].
  intros -> Hrow. cbv zeta. rewrite (update_tenant_profile_run _ _ _ _ _ Hrow).
  cbn [fst snd db set_tenants tenants users landlords properties applications
       transactions].
  split; [done|]. split; [by rewrite !lookup_alter_eq, Hrow|].
  split; [by rewrite get_insert_eq, completion_insert_stored|].
  split; [|split; [|done]].
  - intros k Hk. rewrite !not_elem_of_cons in Hk.
    destruct Hk as (? & ? & ? & ? & ? & _).
    rewrite lookup_insert_ne by done. rewrite lookup_union_r; [done|].
    apply exclude_unset_other. rewrite !not_elem_of_cons, elem_of_nil. tauto.
  - intros id Hne. by rewrite !lookup_alter_ne.
Qed.


Ltac keeps_table :=
  intros ?;
  repeat first
    [ apply hoare_try_except
    | match goal with
      | |- hoare ?P (bind _ _) _ _ => apply (hoare_bind _ _ _ (λ _, P)); [|intros ?]
      end
    | apply hoare_execute;
      [ done
      | intros ? ?;
        unfold select_single, select_tenant_cols, select_applications_of,
          select_application_with_property, insert_application,
          insert_transaction, insert_keyed, update_by_id, update_transactions_of;
        repeat match goal with
               | |- context [?m !! ?k] => destruct (m !! k)
               end;
        done ]
    | apply hoare_datetime_now; done
    | apply hoare_lift; intros ? ?;
      repeat match goal with |- context [match ?x with _ => _ end] => destruct x end;
      done
    | apply hoare_ret; done
    | apply hoare_raise; done
    | match goal with
      | |- hoare _ (match ?x with _ => _ end) _ _ => destruct x
      end ].

Lemma create_application_keeps_tenants application_data current_user :
  keeps tenants (create_application application_data current_user).
Proof. unfold create_application. keeps_table. Qed.

Lemma approve_application_keeps_tenants application_id current_user :
  keeps tenants (approve_application application_id current_user).
Proof. unfold approve_application. keeps_table. Qed.

Lemma reject_application_keeps_tenants application_id rejection_data current_user :
  keeps tenants (reject_application application_id rejection_data current_user).
Proof. unfold reject_application. keeps_table. Qed.

Lemma create_application_keeps_users application_data current_user :
  keeps users (create_application application_data current_user).
Proof. unfold create_application. keeps_table. Qed.

Lemma approve_application_keeps_users application_id current_user :
  keeps users (approve_application application_id current_user).
Proof. unfold approve_application. keeps_table. Qed.

Lemma reject_application_keeps_users application_id rejection_data current_user :
  keeps users (reject_application application_id rejection_data current_user).
Proof. unfold reject_application. keeps_table. Qed.

Lemma keeps_after {A X} (table : database → X) (m : M A) (w : world) :
  keeps table m → table (db (m w).2) = table (db w).
Proof.
  intros H. specialize (H (table (db w)) w eq_refl).
  by destruct (m w) as [[a|e] w'].
Qed.

Lemma gate_agrees_tenants (d d' : database) :
  tenants d' = tenants d → gate_agrees d → gate_agrees d'.
Proof. unfold gate_agrees. by intros ->. Qed.

Lemma gate_agrees_insert (id : string) (row : dict) (d : database) :
  gate (Some row) = Return (negb (step3 row)) →
  gate_agrees d → gate_agrees (set_tenants (insert id row) d).
Proof.
  intros Hrow H id' row'. destruct d as [us ts ls ps aps xs]. cbn [set_tenants tenants] in *.
  intros [[-> ->]|[_ Hl]]%lookup_insert_Some; eauto.
Qed.

Lemma gate_agrees_alter (id : string) (f : dict → dict) (d : database) :
  (∀ row, tenants d !! id = Some row →
          gate (Some row) = Return (negb (step3 row)) →
          gate (Some (f row)) = Return (negb (step3 (f row)))) →
  gate_agrees d → gate_agrees (set_tenants (alter f id) d).
Proof.
  intros Hf H id' row'. destruct d as [us ts ls ps aps xs]. cbn [set_tenants tenants] in *.
  intros [(-> & row & Hl & ->)|[_ Hl]]%lookup_alter_Some; eauto.
Qed.

Lemma gate_typed_update (profile_data : TenantProfileUpdate) (row : dict) :
  gate (Some row) = Return (negb (step3 row)) →
  gate (Some (exclude_unset profile_data ∪ row))
  = Return (negb (step3 (exclude_unset profile_data ∪ row))).
Proof.
  cbn [gate]. unfold step3, present.
  rewrite !get_union_r; [done|..]; apply exclude_unset_other;
    rewrite !not_elem_of_cons, elem_of_nil; repeat split; discriminate || tauto.
Qed.

Lemma gate_stored_completion (row : dict) :
  gate (Some (<["profile_completion" :=
                  VInt (calculate_profile_completion row)]> row))
  = Return (negb (step3 (<["profile_completion" :=
                             VInt (calculate_profile_completion row)]> row))).
Proof.
  cbn [gate]. rewrite get_insert_eq, step3_insert_stored. cbn [py_lt].
  by rewrite completion_lt_100.
Qed.

Lemma register_gate_agrees (user_data : UserRegister) (sign_up : SignUp) :
  hoare gate_agrees (register user_data sign_up) (λ _, gate_agrees) gate_agrees.
Proof.
  unfold register. apply hoare_try_except.
  apply (hoare_bind _ _ _ (λ _, gate_agrees)); [by apply hoare_execute|].
  intros auth_response. destruct (su_user auth_response) as [user_id|];
    [|by apply hoare_raise].
  apply (hoare_bind _ _ _ (λ _, gate_agrees)).
  { apply hoare_execute; [done|]. intros d Hd. unfold insert_keyed.
    destruct (users d !! user_id); [done|].
    by apply (gate_agrees_tenants d). }
  intros _. apply (hoare_bind _ _ _ (λ _, gate_agrees)).
  { destruct (bool_decide (ur_user_type user_data = "tenant")).
    - apply hoare_execute; [done|]. intros d Hd. unfold insert_keyed.
      destruct (tenants d !! user_id); [done|].
      by apply gate_agrees_insert.
    - destruct (bool_decide (ur_user_type user_data = "landlord")).
      + apply hoare_execute; [done|]. intros d Hd. unfold insert_keyed.
        destruct (landlords d !! user_id); [done|].
        by apply (gate_agrees_tenants d).
      + by apply hoare_ret. }
  intros _. apply (hoare_bind _ _ _ (λ _, gate_agrees));
    [by apply hoare_datetime_now|].
  intros created_at. apply (hoare_bind _ _ _ (λ _, gate_agrees)).
  { apply hoare_lift. intros d Hd. by destruct (su_session auth_response). }
  intros access_token. by apply hoare_ret.
Qed.

Lemma complete_profile_gate_agrees (profile_data : CompleteProfileData)
    (current_user : identity) :
  hoare gate_agrees (complete_profile profile_data current_user)
    (λ _, gate_agrees) gate_agrees.
Proof.
  unfold complete_profile. apply hoare_try_except.
  apply (hoare_bind _ _ _ (λ _, gate_agrees)); [by apply hoare_datetime_now|].
  intros t. apply (hoare_bind _ _ _ (λ _, gate_agrees)).
  { apply hoare_execute; [done|]. intros d Hd. unfold update_by_id.
    apply gate_agrees_alter; [|done]. intros row _ _.
    cbn [gate]. unfold step3, present.
    rewrite (get_union_l _ _ "profile_completion" (VInt 100)) by reflexivity.
    rewrite (get_union_l _ _ "onboarding_completed" (VBool true)) by reflexivity.
    reflexivity. }
  intros [|[? profile] ?]; [by apply hoare_raise|].
  apply (hoare_bind _ _ _ (λ _, gate_agrees)); [|intros _; by apply hoare_ret].
  apply hoare_execute; [done|]. intros d Hd. unfold update_by_id.
  by apply (gate_agrees_tenants d).
Qed.

Lemma typed_update_gate_agrees (profile_data : TenantProfileUpdate)
    (current_user : identity) :
  hoare gate_agrees
    (update_tenant_profile (exclude_unset profile_data) current_user)
    (λ _, gate_agrees) gate_agrees.
Proof.
  unfold update_tenant_profile. apply hoare_try_except.
  apply (hoare_bind _ _ _
           (λ response d, gate_agrees d ∧
              ∀ x tenant_data rest, response = (x, tenant_data) :: rest →
                tenants d !! cu_id current_user = Some tenant_data)).
  { apply hoare_execute; [done|]. intros d Hd. unfold update_by_id. split.
    - apply gate_agrees_alter; [|done]. intros row _. apply gate_typed_update.
    - intros x tenant_data rest. destruct d as [us ts ls ps aps xs].
      cbn [set_tenants tenants]. rewrite lookup_alter_eq.
      destruct (ts !! cu_id current_user); cbn; [|done]. by intros [= <- <- <-]. }
  intros [|[x tenant_data] rest]; [apply hoare_raise; tauto|].
  apply (hoare_bind _ _ _ (λ _, gate_agrees)); [|intros _; by apply hoare_ret].
  apply hoare_execute; [tauto|]. intros d [Hd Hrow]. unfold update_by_id.
  specialize (Hrow _ _ _ eq_refl).
  apply gate_agrees_alter; [|done]. intros row Hrow' _.
  assert (row = tenant_data) as -> by congruence.
  apply gate_stored_completion.
Qed.

Lemma after_call_gate_agrees (w : world) (c : api_call) :
  gate_agrees (db w) → gate_agrees (db (after_call w c)).
Proof.
  intros H.
  destruct c as [user_data sign_up|pd cu|pd cu|[data cu|id cu|id data cu]];
    cbn [after_call after].
  - pose proof (register_gate_agrees user_data sign_up w H) as H'.
    by destruct (register _ _ w) as [[a|e] w'].
  - pose proof (typed_update_gate_agrees pd cu w H) as H'.
    by destruct (update_tenant_profile _ _ w) as [[a|e] w'].
  - pose proof (complete_profile_gate_agrees pd cu w H) as H'.
    by destruct (complete_profile _ _ w) as [[a|e] w'].
  - apply (gate_agrees_tenants (db w)); [|done].
    apply keeps_after, create_application_keeps_tenants.
  - apply (gate_agrees_tenants (db w)); [|done].
    apply keeps_after, approve_application_keeps_tenants.
  - apply (gate_agrees_tenants (db w)); [|done].
    apply keeps_after, reject_application_keeps_tenants.
Qed.

(** X17. Whatever fails, every register, typed profile update, profile
    completion, submit, approve and reject keeps this invariant: the stored
    completion of a tenant row lets a submission through exactly when the
    row's onboarding is completed. *)
Theorem gate_agrees_always (w : world) (calls : list api_call) :
  gate_agrees (db w) → gate_agrees (db (foldl after_call w calls)).
Proof.
  revert w. induction calls as [|c calls IH]; intros w H; [done|].
  cbn [foldl]. by apply IH, after_call_gate_agrees.
Qed.

Lemma get_profile_status_run (current_user : identity) (d : database) (c : nat)
    (tenant_data : dict) :
  tenants d !! cu_id current_user = Some tenant_data →
  tenant_data ≠ ∅ →
  get_profile_status current_user (World d [] c)
  = (Return (profile_status tenant_data (users d !! cu_id current_user)),
     World d [] c).
Proof.
  intros Hrow Hne. unfold get_profile_status. run. rewrite Hrow.
  cbn [truthy]. rewrite bool_decide_eq_false_2; [done|].
  by rewrite map_size_empty_iff.
Qed.


Lemma missing_fields_closed (tenant_data : dict) (user_data : option user) :
  ps_missing_fields (profile_status tenant_data user_data)
  = unless (present tenant_data "budget") "budget"
    ++ unless (present tenant_data "preferred_location") "preferred_location"
    ++ unless (has_document tenant_data "id_document") "id_document"
    ++ unless (has_document tenant_data "proof_of_income") "proof_of_income".
Proof.
  unfold profile_status, has_document, present, get_default, unless.
  cbn [ps_missing_fields].
  destruct (truthy (get tenant_data "budget")),
    (truthy (get tenant_data "preferred_location")); cbn [negb app];
    (destruct (tenant_data !! "documents") as [[| | | | | |docs]|];
     cbn [default from_option id app]; try reflexivity;
     destruct (truthy (get docs "id_document")),
       (truthy (get docs "proof_of_income")); reflexivity).
Qed.

Lemma elem_of_unless (f : string) (b : bool) (field : string) :
  f ∈ unless b field ↔ b = false ∧ f = field.
Proof.
  destruct b; cbn [unless].
  - rewrite elem_of_nil. split; [done | by intros []].
  - rewrite list_elem_of_singleton. split; [done | by intros []].
Qed.

Lemma step2_documents (p : dict) :
  step2 p = has_document p "id_document" && has_document p "proof_of_income".
Proof.
  unfold step2, has_document. by destruct (p !! "documents") as [[| | | | | |docs]|].
Qed.

(** X11. In [get_profile_status], a field is reported missing exactly when
    it is not present, nothing is missing exactly when steps 1 and 2 of the
    completion hold, and [can_apply] is the completion of onboarding alone: a
    profile with nothing missing has completion at least 67 and still cannot
    apply until onboarding is completed. *)
Theorem profile_status_fields (tenant_data : dict) (user_data : option user) :
  let st := profile_status tenant_data user_data in
  (ps_missing_fields st = [] ↔ step1 tenant_data = true ∧ step2 tenant_data = true) ∧
  ("budget" ∈ ps_missing_fields st ↔ present tenant_data "budget" = false) ∧
  ("preferred_location" ∈ ps_missing_fields st
   ↔ present tenant_data "preferred_location" = false) ∧
  ("id_document" ∈ ps_missing_fields st
   ↔ has_document tenant_data "id_document" = false) ∧
  ("proof_of_income" ∈ ps_missing_fields st
   ↔ has_document tenant_data "proof_of_income" = false) ∧
  ps_can_apply st = step3 tenant_data ∧
  (ps_missing_fields st = [] → 67 ≤ ps_profile_completion st) ∧
  (ps_can_apply st = false → ps_profile_completion st ≤ 67).
Proof.
  cbv zeta. rewrite missing_fields_closed.
  assert (Hcan : ps_can_apply (profile_status tenant_data user_data)
                 = step3 tenant_data) by apply completion_100_iff.
  assert (Hc : ps_profile_completion (profile_status tenant_data user_data)
               = calculate_profile_completion tenant_data) by reflexivity.
  rewrite Hcan, Hc, completion_is_floor. unfold step_reached.
  unfold step1. rewrite step2_documents.
  set (b1 := present tenant_data "budget").
  set (b2 := present tenant_data "preferred_location").
  set (b3 := has_document tenant_data "id_document").
  set (b4 := has_document tenant_data "proof_of_income").
  split; [|split; [|split; [|split; [|split; [|split; [|split]]]]]].
  - destruct b1, b2, b3, b4; cbn [unless app andb]; split; (done || by intros []).
  - rewrite !elem_of_app, !elem_of_unless. intuition discriminate.
  - rewrite !elem_of_app, !elem_of_unless. intuition discriminate.
  - rewrite !elem_of_app, !elem_of_unless. intuition discriminate.
  - rewrite !elem_of_app, !elem_of_unless. intuition discriminate.
  - done.
  - destruct b1, b2, b3, b4; cbn [unless app andb]; try discriminate.
    intros _. destruct (step3 tenant_data); simpl; lia.
  - intros ->. destruct (b3 && b4), (b1 && b2); simpl; lia.
Qed.





Lemma register_run (user_data : UserRegister) (sign_up : SignUp) (user_id : string)
    (d : database) (c : nat) :
  su_user sign_up = Some user_id →
  users d !! user_id = None →
  tenants d !! user_id = None →
  landlords d !! user_id = None →
  register user_data sign_up (World d [] c) =
  (match su_session sign_up with
   | Some access_token =>
       Return ({| ures_id := user_id; ures_email := ur_email user_data;
                  ures_full_name := ur_full_name user_data;
                  ures_user_type := ur_user_type user_data;
                  ures_trust_score := 50; ures_verification_status := "partial";
                  ures_created_at := isoformat c |}, access_token)
   | None =>
       Raise (HTTPException 400 ("Registration failed: " +:+ no_access_token))
   end,
   World (registered user_data user_id d) [] (S c)).
Proof.
  intros Hu Hus Hts Hls. unfold register, registered. run. rewrite Hu. run.
  rewrite Hus. run.
  destruct (bool_decide (ur_user_type user_data = "tenant")).
  - run. cbn [set_users tenants]. rewrite Hts.
    destruct (su_session sign_up); reflexivity.
  - destruct (bool_decide (ur_user_type user_data = "landlord")).
    + run. cbn [set_users landlords]. rewrite Hls.
      destruct (su_session sign_up); reflexivity.
    + run. destruct (su_session sign_up); reflexivity.
Qed.

(** X19. When sign-up opens no session, [register] fails with 400, yet the
    user row (trust score 50, partial) and the tenant or landlord row have
    been written. *)
Theorem register_without_session (w : world) (user_data : UserRegister)
    (sign_up : SignUp) (user_id : string) :
  storage_available w →
  su_user sign_up = Some user_id →
  su_session sign_up = None →
  users (db w) !! user_id = None →
  tenants (db w) !! user_id = None →
  landlords (db w) !! user_id = None →
  (register user_data sign_up w).1
  = Raise (HTTPException 400 ("Registration failed: " +:+ no_access_token)) ∧
  users (db (register user_data sign_up w).2) !! user_id = Some (new_user user_data) ∧
  (ur_user_type user_data = "tenant" →
   tenants (db (register user_data sign_up w).2) !! user_id
   = Some (registered_tenant user_id)) ∧
  (ur_user_type user_data = "landlord" →
   landlords (db (register user_data sign_up w).2) !! user_id
   = Some (registered_landlord user_id)).
Proof.
  destruct w as [d fs c]. unfold storage_available. cbn [faults db].
  intros -> Hu Hs Hus Hts Hls.
  rewrite (register_run _ _ _ _ _ Hu Hus Hts Hls), Hs. cbn [fst snd db].
  unfold registered. split; [done|]. split; [|split].
  - destruct (bool_decide (ur_user_type user_data = "tenant"));
      [|destruct (bool_decide (ur_user_type user_data = "landlord"))];
      cbn [set_tenants set_landlords set_users users]; by rewrite lookup_insert_eq.
  - intros E. rewrite bool_decide_eq_true_2 by done.
    cbn [set_tenants set_users tenants]. by rewrite lookup_insert_eq.
  - intros E. rewrite bool_decide_eq_false_2 by (rewrite E; discriminate).
    rewrite bool_decide_eq_true_2 by done.
    cbn [set_landlords set_users landlords]. by rewrite lookup_insert_eq.
Qed.

(** X20. A tenant who has just registered is recognised by the middleware,
    has completion 0 with all four fields missing and cannot apply: a
    submission is refused with ProfileIncomplete. *)
Theorem registered_tenant_cannot_submit (w : world) (user_data : UserRegister)
    (sign_up : SignUp) (user_id access_token : string)
    (application_data : ApplicationCreate) :
  storage_available w →
  su_user sign_up = Some user_id →
  su_session sign_up = Some access_token →
  ur_user_type user_data = "tenant" →
  users (db w) !! user_id = None →
  tenants (db w) !! user_id = None →
  landlords (db w) !! user_id = None →
  let w' := (register user_data sign_up w).2 in
  let current_user := Identity user_id "tenant" in
  (∃ response, (register user_data sign_up w).1 = Return (response, access_token)) ∧
  get_current_user (Some user_id) w' = (Return current_user, w') ∧
  create_application application_data current_user w' = (Raise ProfileIncomplete, w') ∧
  ∃ st, get_profile_status current_user w' = (Return st, w') ∧
        ps_can_apply st = false ∧ ps_profile_completion st = 0 ∧
        ps_trust_score st = 50 ∧ ps_verification_status st = "partial" ∧
        ps_missing_fields st
        = ["budget"; "preferred_location"; "id_document"; "proof_of_income"].
Proof.
  destruct w as [d fs c]. unfold storage_available. cbn [faults db].
  intros -> Hu Hs Ht Hus Hts Hls. cbv zeta.
  rewrite (register_run _ _ _ _ _ Hu Hus Hts Hls), Hs. cbn [fst snd].
  unfold registered. rewrite bool_decide_eq_true_2 by done.
  split; [eauto|].
  assert (Hrow : tenants (set_tenants (insert user_id (registered_tenant user_id))
                   (set_users (insert user_id (new_user user_data)) d)) !! user_id
                 = Some (registered_tenant user_id)).
  { cbn [set_tenants set_users tenants]. by rewrite lookup_insert_eq. }
  assert (Huser : users (set_tenants (insert user_id (registered_tenant user_id))
                   (set_users (insert user_id (new_user user_data)) d)) !! user_id
                 = Some (new_user user_data)).
  { cbn [set_tenants set_users users]. by rewrite lookup_insert_eq. }
  split; [|split].
  - rewrite get_current_user_run, Huser. cbn [new_user usr_user_type]. by rewrite Ht.
  - rewrite create_application_gate; [done | done |].
    cbn [cu_id]. by rewrite Hrow.
  - eexists. rewrite (get_profile_status_run _ _ _ (registered_tenant user_id));
      [|done|].
    + cbn [cu_id]. rewrite Huser. split; [done|]. repeat split.
    + intros E. apply (f_equal (λ m, m !! "id")) in E. discriminate.
Qed.

Lemma register_keeps_rows (user_data : UserRegister) (sign_up : SignUp)
    (us : gmap string user) (ts ls : gmap string dict) :
  hoare (has_rows us ts ls) (register user_data sign_up)
    (λ _, has_rows us ts ls) (has_rows us ts ls).
Proof.
  set (P := has_rows us ts ls).
  unfold register. apply hoare_try_except.
  apply (hoare_bind _ _ _ (λ _, P)); [by apply hoare_execute|].
  intros auth_response. destruct (su_user auth_response) as [user_id|];
    [|by apply hoare_raise].
  apply (hoare_bind _ _ _ (λ _, P)).
  { apply hoare_execute; [done|]. intros d (Hu & Ht & Hl). unfold insert_keyed.
    destruct (users d !! user_id) eqn:E; [done|].
    split; [|done]. cbn [set_users users].
    etrans; [exact Hu|]. by apply insert_subseteq. }
  intros _. apply (hoare_bind _ _ _ (λ _, P)).
  { destruct (bool_decide (ur_user_type user_data = "tenant")).
    - apply hoare_execute; [done|]. intros d (Hu & Ht & Hl). unfold insert_keyed.
      destruct (tenants d !! user_id) eqn:E; [done|].
      split; [done|]. split; [|done]. cbn [set_tenants tenants].
      etrans; [exact Ht|]. by apply insert_subseteq.
    - destruct (bool_decide (ur_user_type user_data = "landlord")).
      + apply hoare_execute; [done|]. intros d (Hu & Ht & Hl). unfold insert_keyed.
        destruct (landlords d !! user_id) eqn:E; [done|].
        split; [done|]. split; [done|]. cbn [set_landlords landlords].
        etrans; [exact Hl|]. by apply insert_subseteq.
      + by apply hoare_ret. }
  intros _. apply (hoare_bind _ _ _ (λ _, P)); [by apply hoare_datetime_now|].
  intros created_at. apply (hoare_bind _ _ _ (λ _, P)).
  { apply hoare_lift. intros d Hd. by destruct (su_session auth_response). }
  intros access_token. by apply hoare_ret.
Qed.

Lemma register_keeps_properties user_data sign_up :
  keeps properties (register user_data sign_up).
Proof. unfold register. keeps_table. Qed.

Lemma register_keeps_applications user_data sign_up :
  keeps applications (register user_data sign_up).
Proof. unfold register. keeps_table. Qed.

Lemma register_keeps_transactions user_data sign_up :
  keeps transactions (register user_data sign_up).
Proof. unfold register. keeps_table. Qed.

(** X21. Whatever fails, [register] only adds rows: every user, tenant and
    landlord row stays as it was, and properties, applications and
    transactions are untouched; registering an id that already has a user row
    fails with 400 and changes nothing. *)
Theorem register_never_replaces (w : world) (user_data : UserRegister)
    (sign_up : SignUp) :
  users (db w) ⊆ users (db (register user_data sign_up w).2) ∧
  tenants (db w) ⊆ tenants (db (register user_data sign_up w).2) ∧
  landlords (db w) ⊆ landlords (db (register user_data sign_up w).2) ∧
  properties (db (register user_data sign_up w).2) = properties (db w) ∧
  applications (db (register user_data sign_up w).2) = applications (db w) ∧
  transactions (db (register user_data sign_up w).2) = transactions (db w) ∧
  (storage_available w →
   ∀ user_id, su_user sign_up = Some user_id →
              is_Some (users (db w) !! user_id) →
              register user_data sign_up w
              = (Raise (HTTPException 400 ("Registration failed: " +:+ duplicate_key)),
                 w)).
Proof.
  assert (has_rows (users (db w)) (tenants (db w)) (landlords (db w))
            (db (register user_data sign_up w).2)) as (Hu & Ht & Hl).
  { pose proof (register_keeps_rows user_data sign_up (users (db w))
                  (tenants (db w)) (landlords (db w)) w) as H.
    destruct (register user_data sign_up w) as [[a|e] w']; by apply H. }
  split; [done|]. split; [done|]. split; [done|].
  split; [apply keeps_after, register_keeps_properties|].
  split; [apply keeps_after, register_keeps_applications|].
  split; [apply keeps_after, register_keeps_transactions|].
  destruct w as [d fs c]. unfold storage_available. cbn [faults db].
  intros -> user_id Hid [u Hu']. unfold register. run. rewrite Hid. run.
  by rewrite Hu'.
Qed.

Lemma complete_profile_run (profile_data : CompleteProfileData)
    (current_user : identity) (d : database) (c : nat) (row : dict) :
  tenants d !! cu_id current_user = Some row →
  complete_profile profile_data current_user (World d [] c) =
  (Return (completion_update profile_data c ∪ row, completion_score profile_data),
   World (set_users
            (alter (with_trust (completion_score profile_data) "approved")
               (cu_id current_user))
            (set_tenants
               (alter (λ row, completion_update profile_data c ∪ row)
                  (cu_id current_user)) d))
         [] (S c)).
Proof.
  intros Hrow. unfold complete_profile. run. rewrite Hrow.
  cbn [option_list fmap option_fmap option_map]. run.
  cbn [set_tenants set_users users tenants].
  destruct (users d !! cu_id current_user) as [u|];
    cbn [option_list fmap option_fmap option_map];
    unfold completion_score, completion_update;
    destruct (cp_join_rent_credit profile_data); reflexivity.
Qed.

(** X15. For a user without a tenant row, [complete_profile] fails with 400
    "Failed to complete profile" and [update_tenant_profile] with 400 "Failed
    to update profile"; neither changes the store, so no trust score is
    granted. *)
Theorem profile_writes_need_a_tenant_row (w : world) (current_user : identity)
    (completion : CompleteProfileData) (update : TenantProfileUpdate) :
  storage_available w →
  tenants (db w) !! cu_id current_user = None →
  (complete_profile completion current_user w).1 = Raise cannot_complete ∧
  db (complete_profile completion current_user w).2 = db w ∧
  update_tenant_profile (exclude_unset update) current_user w
  = (Raise cannot_update, w).
Proof.
  destruct w as [d fs c]. unfold storage_available. cbn [faults db].
  intros -> Hrow. rewrite (update_tenant_profile_missing _ _ _ _ Hrow).
  rewrite (set_tenants_missing _ _ _ Hrow).
  unfold complete_profile. run. rewrite Hrow. cbn [option_list fmap option_fmap option_map fst snd db].
  rewrite (set_tenants_missing _ _ _ Hrow). done.
Qed.

Lemma create_application_success (application_data : ApplicationCreate)
    (current_user : identity) (d : database) (c : nat) (p : property) :
  passes_gate d (cu_id current_user) →
  properties d !! ac_property_id application_data = Some p →
  (∀ id a, applications d !! id = Some a →
           ¬ (app_tenant_id a = cu_id current_user ∧
              app_property_id a = ac_property_id application_data)) →
  create_application application_data current_user (World d [] c) =
  (Return
     ((fresh (dom (applications d)),
       new_application application_data (cu_id current_user)),
      Some (fresh (dom (transactions d)),
            new_escrow (fresh (dom (applications d))) application_data
              (cu_id current_user) p (isoformat c))),
   World (submit_effect 3 application_data (cu_id current_user) p c d) [] (S c)).
Proof.
  unfold passes_gate. intros Hg Hp Hnone.
  by rewrite create_application_run, Hg, Hp, (applications_of_empty _ _ _ Hnone).
Qed.

(** X6. A submission that passes the three checks succeeds whatever the
    property's status: it adds one application, submitted, under an id not
    in use; one escrow transaction for it, held, for the property's rent and
    its landlord; it raises the property's application count by one; and it
    leaves every other row of the store alone. *)
Theorem submit_success_effect (w : world) (application_data : ApplicationCreate)
    (current_user : identity) (p : property) :
  storage_available w →
  passes_gate (db w) (cu_id current_user) →
  properties (db w) !! ac_property_id application_data = Some p →
  (∀ id a, applications (db w) !! id = Some a →
           ¬ (app_tenant_id a = cu_id current_user ∧
              app_property_id a = ac_property_id application_data)) →
  ∃ id tid a t w',
    create_application application_data current_user w
    = (Return ((id, a), Some (tid, t)), w') ∧
    applications (db w) !! id = None ∧ transactions (db w) !! tid = None ∧
    app_tenant_id a = cu_id current_user ∧
    app_property_id a = ac_property_id application_data ∧
    app_status a = "submitted" ∧ app_message a = ac_message application_data ∧
    txn_application_id t = id ∧ txn_status t = "held" ∧
    txn_amount t = prop_rent_amount p ∧ txn_tenant_id t = cu_id current_user ∧
    txn_landlord_id t = prop_landlord_id p ∧
    applications (db w') = <[id := a]> (applications (db w)) ∧
    transactions (db w') = <[tid := t]> (transactions (db w)) ∧
    properties (db w')
    = <[ac_property_id application_data :=
          with_application_count (prop_application_count p + 1) p]>
        (properties (db w)) ∧
    users (db w') = users (db w) ∧ tenants (db w') = tenants (db w) ∧
    landlords (db w') = landlords (db w).
Proof.
  destruct w as [d fs c]. unfold storage_available. cbn [faults db].
  intros -> Hg Hp Hnone. eexists _, _, _, _, _.
  rewrite (create_application_success _ _ _ _ _ Hg Hp Hnone).
  split; [reflexivity|]. unfold submit_effect.
  cbn [db set_properties set_transactions set_applications applications
       transactions properties users tenants landlords].
  split; [apply fresh_key_unused|]. split; [apply fresh_key_unused|].
  repeat (split; [reflexivity|]).
  split; [|done].
  apply map_eq. intros i.
  destruct (decide (i = ac_property_id application_data)) as [->|Hne].
  - by rewrite lookup_alter_eq, lookup_insert_eq, Hp.
  - by rewrite lookup_alter_ne, lookup_insert_ne.
Qed.


(** X8. Submitting is single-fire: right after a successful
    [create_application], the same call fails with DuplicateApplication and
    changes nothing. *)
Theorem resubmission_is_duplicate (w : world) (application_data : ApplicationCreate)
    (current_user : identity) (r : (string * application) * option (string * transaction))
    (w' : world) :
  storage_available w →
  create_application application_data current_user w = (Return r, w') →
  create_application application_data current_user w' = (Raise DuplicateApplication, w').
Proof.
  destruct w as [d fs c]. unfold storage_available. cbn [faults db].
  intros ->. rewrite create_application_run.
  destruct (gate (tenants d !! cu_id current_user)) as [[|]|[code detail|msg]] eqn:Hg;
    try discriminate.
  destruct (properties d !! ac_property_id application_data) as [p|] eqn:Hp;
    [|discriminate].
  destruct (map_to_list _) as [|x rest] eqn:Hl; [|discriminate].
  intros [= <- <-]. rewrite create_application_run.
  assert (Hne : map_to_list
                  (applications_of (cu_id current_user)
                     (ac_property_id application_data)
                     (submit_effect 3 application_data (cu_id current_user) p c d))
                ≠ []).
  { apply applications_of_nonempty. eexists _, _. unfold submit_effect.
    cbn [set_properties set_transactions set_applications applications].
    split; [apply lookup_insert_eq | done]. }
  clear Hl. revert Hne. unfold submit_effect. cbv beta zeta iota.
  destruct (map_to_list _) as [|y rest']; [done|]. intros _.
  unfold submit_effect.
  cbn [set_properties set_transactions set_applications applications
       transactions properties tenants].
  by rewrite Hg, lookup_alter_eq, Hp.
Qed.


(** X16. Completing the profile unlocks applying: after a successful
    [complete_profile] the stored row has completion 100, computed and
    stored, keeps every field the form does not write, passes the gate, and
    a submission for an existing property not yet applied for succeeds. *)
Theorem complete_then_submit (w : world) (profile_data : CompleteProfileData)
    (application_data : ApplicationCreate) (current_user : identity)
    (row : dict) (p : property) :
  storage_available w →
  tenants (db w) !! cu_id current_user = Some row →
  properties (db w) !! ac_property_id application_data = Some p →
  (∀ id a, applications (db w) !! id = Some a →
           ¬ (app_tenant_id a = cu_id current_user ∧
              app_property_id a = ac_property_id application_data)) →
  let w1 := (complete_profile profile_data current_user w).2 in
  ∃ profile score,
    (complete_profile profile_data current_user w).1 = Return (profile, score) ∧
    tenants (db w1) !! cu_id current_user = Some profile ∧
    profile !! "profile_completion" = Some (VInt 100) ∧
    calculate_profile_completion profile = 100 ∧
    (∀ k, completion_update profile_data (clock w) !! k = None →
          profile !! k = row !! k) ∧
    passes_gate (db w1) (cu_id current_user) ∧
    ∃ id a t w2,
      create_application application_data current_user w1
      = (Return ((id, a), Some t), w2) ∧
      app_status a = "submitted" ∧ applications (db w2) !! id = Some a.
Proof.
  destruct w as [d fs c]. unfold storage_available. cbn [faults db clock].
  intros -> Hrow Hp Hnone. cbv zeta.
  rewrite (complete_profile_run _ _ _ _ _ Hrow). cbn [fst snd].
  set (d1 := set_users _ _).
  assert (Hrow1 : tenants d1 !! cu_id current_user
                  = Some (completion_update profile_data c ∪ row)).
  { unfold d1. cbn [set_users set_tenants tenants]. by rewrite lookup_alter_eq, Hrow. }
  assert (Hstored : (completion_update profile_data c ∪ row) !! "profile_completion"
                    = Some (VInt 100)).
  { by apply lookup_union_Some_l. }
  assert (Hgate : passes_gate d1 (cu_id current_user)).
  { unfold passes_gate. rewrite Hrow1. cbn [gate]. unfold get. by rewrite Hstored. }
  eexists _, _. split; [done|]. split; [done|]. split; [done|].
  split.
  { rewrite completion_is_floor. unfold step_reached, step3, present.
    by rewrite (get_union_l _ _ "onboarding_completed" (VBool true)). }
  split; [intros k Hk; by apply lookup_union_r|].
  split; [done|].
  eexists _, _, _, _.
  rewrite (create_application_success _ _ d1 _ p Hgate); [|done|done].
  split; [done|]. split; [done|].
  unfold submit_effect.
  cbn [db set_properties set_transactions set_applications applications].
  by rewrite lookup_insert_eq.
Qed.

(** X5. After a successful [create_application] by a tenant, the new
    application is in that tenant's listing and in the listing of the
    landlord of the property. *)
Theorem submitted_application_is_listed (w w' : world)
    (application_data : ApplicationCreate) (current_user : identity)
    (id : string) (a : application) (t : option (string * transaction)) :
  storage_available w →
  cu_user_type current_user = "tenant" →
  create_application application_data current_user w = (Return ((id, a), t), w') →
  (∃ rows embedded,
     get_applications current_user w' = (Return (TenantListing rows), w') ∧
     rows !! id = Some (a, embedded)) ∧
  (∃ p rows p' tenant,
     properties (db w) !! ac_property_id application_data = Some p ∧
     get_applications (Identity (prop_landlord_id p) "landlord") w'
     = (Return (LandlordListing rows), w') ∧
     rows !! id = Some (a, p', tenant)).
Proof.
  destruct w as [d fs c]. unfold storage_available. cbn [faults db].
  intros -> Ht. rewrite create_application_run.
  destruct (gate (tenants d !! cu_id current_user)) as [[|]|[code detail|msg]];
    try discriminate.
  destruct (properties d !! ac_property_id application_data) as [p|] eqn:Hp;
    [|discriminate].
  destruct (map_to_list _) as [|x rest]; [|discriminate].
  intros [= <- <- <- <-]. unfold submit_effect. split.
  - rewrite get_applications_run, Ht.
    rewrite (bool_decide_eq_true_2 ("tenant" = "tenant")) by done.
    eexists _, _. split; [done|]. apply tenant_rows_lookup.
    cbn [set_properties set_transactions set_applications applications].
    rewrite lookup_insert_eq. done.
  - exists p. rewrite get_applications_run. cbn [cu_user_type cu_id].
    rewrite (bool_decide_eq_false_2 ("landlord" = "tenant")) by discriminate.
    rewrite (bool_decide_eq_true_2 ("landlord" = "landlord")) by done.
    eexists _, _, _. split; [done|]. split; [done|].
    apply landlord_rows_lookup.
    cbn [set_properties set_transactions set_applications applications properties].
    rewrite lookup_insert_eq. cbn [new_application app_property_id].
    rewrite lookup_alter_eq, Hp. done.
Qed.

(** X10. Whatever fails, submit, approve and reject never write to the users
    or to the tenant profiles. *)
Theorem lifecycle_leaves_accounts (w : world) (c : lifecycle_call) :
  users (db (after w c)) = users (db w) ∧
  tenants (db (after w c)) = tenants (db w).
Proof.
  destruct c as [data cu|id cu|id data cu]; cbn [after]; split; apply keeps_after.
  - apply create_application_keeps_users.
  - apply create_application_keeps_tenants.
  - apply approve_application_keeps_users.
  - apply approve_application_keeps_tenants.
  - apply reject_application_keeps_users.
  - apply reject_application_keeps_tenants.
Qed.

Lemma get_applications_by_role_witness :
  ∃ rows embedded,
    get_applications tenant1 world_with_landlord
    = (Return (TenantListing rows), world_with_landlord) ∧
    rows !! "0" = Some (new_application flat_request "tenant-1", embedded).
Proof.
  destruct (get_applications_by_role world_with_landlord tenant1) as (H & _ & _);
    [vm_compute; reflexivity|].
  destruct (H eq_refl) as (rows & Hrun & Hrows).
  exists rows. eexists. split; [exact Hrun|].
  apply Hrows. repeat split; vm_compute; reflexivity.
Defined.

Lemma landlord_reviews_what_it_lists_witness :
  (approve_application "0" landlord1 world_with_landlord).1
    = Return "Application approved successfully" ∨
  ∃ status, (approve_application "0" landlord1 world_with_landlord).1
            = Raise (InvalidTransition status).
Proof.
  destruct (landlord_reviews_what_it_lists world_with_landlord landlord1
              (LandlordListing (landlord_rows "landlord-1" (db world_with_landlord)))
              "0" not_eligible) as [H _].
  - vm_compute; reflexivity.
  - reflexivity.
  - vm_compute; reflexivity.
  - apply H. cbn [listed]. apply elem_of_dom. vm_compute. eexists; reflexivity.
Defined.

Lemma submitted_application_is_listed_witness :
  ∃ rows embedded,
    get_applications tenant1 world_submitted
    = (Return (TenantListing rows), world_submitted) ∧
    rows !! "0" = Some (new_application flat_request "tenant-1", embedded).
Proof.
  destruct (submitted_application_is_listed world_completed world_submitted
              flat_request tenant1 "0" (new_application flat_request "tenant-1")
              (Some ("0", new_escrow "0" flat_request "tenant-1" flat "2")))
    as [H _].
  - vm_compute; reflexivity.
  - reflexivity.
  - vm_compute; reflexivity.
  - exact H.
Defined.

Lemma no_applications_yet (id : string) (a : application) :
  applications (db world_completed) !! id = Some a →
  ¬ (app_tenant_id a = cu_id tenant1 ∧ app_property_id a = ac_property_id flat_request).
Proof.
  assert (E : applications (db world_completed) = ∅) by (vm_compute; reflexivity).
  rewrite E, lookup_empty. discriminate.
Qed.

Lemma no_applications_listed (id : string) (a : application) :
  applications (db world_listed) !! id = Some a →
  ¬ (app_tenant_id a = cu_id tenant1 ∧ app_property_id a = ac_property_id flat_request).
Proof.
  assert (E : applications (db world_listed) = ∅) by (vm_compute; reflexivity).
  rewrite E, lookup_empty. discriminate.
Qed.


Lemma submit_success_effect_witness :
  ∃ id tid a t w',
    create_application flat_request tenant1 world_completed
    = (Return ((id, a), Some (tid, t)), w') ∧
    app_status a = "submitted" ∧ txn_status t = "held" ∧
    txn_amount t = prop_rent_amount flat.
Proof.
  destruct (submit_success_effect world_completed flat_request tenant1 flat)
    as (id & tid & a & t & w' & H & _ & _ & _ & _ & Hs & _ & _ & Hh & Ha & _).
  - vm_compute; reflexivity.
  - unfold passes_gate. vm_compute; reflexivity.
  - vm_compute; reflexivity.
  - apply no_applications_yet.
  - exists id, tid, a, t, w'. exact (conj H (conj Hs (conj Hh Ha))).
Defined.


Lemma resubmission_is_duplicate_witness :
  create_application flat_request tenant1 world_submitted
  = (Raise DuplicateApplication, world_submitted).
Proof.
  apply (resubmission_is_duplicate world_completed flat_request tenant1
           (("0", new_application flat_request "tenant-1"),
            Some ("0", new_escrow "0" flat_request "tenant-1" flat "2"))).
  - vm_compute; reflexivity.
  - vm_compute; reflexivity.
Defined.



Lemma typed_update_effect_witness :
  users (db (update_tenant_profile (exclude_unset clear_budget) tenant1
               world_with_landlord).2)
  = users (db world_with_landlord).
Proof.
  pose proof (typed_update_effect world_with_landlord clear_budget tenant1
                (stored_profile world_with_landlord "tenant-1")) as H.
  cbv zeta in H. destruct H as (_ & _ & _ & _ & _ & Hu & _).
  - vm_compute; reflexivity.
  - vm_compute; reflexivity.
  - exact Hu.
Defined.


Lemma profile_writes_need_a_tenant_row_witness :
  (complete_profile (tenant1_profile true) landlord1 world_with_landlord).1
  = Raise cannot_complete ∧
  db (complete_profile (tenant1_profile true) landlord1 world_with_landlord).2
  = db world_with_landlord.
Proof.
  destruct (profile_writes_need_a_tenant_row world_with_landlord landlord1
              (tenant1_profile true) set_budget) as (H1 & H2 & _).
  - vm_compute; reflexivity.
  - vm_compute; reflexivity.
  - split; [exact H1 | exact H2].
Defined.

Lemma complete_then_submit_witness :
  passes_gate (db (complete_profile (tenant1_profile false) tenant1 world_listed).2)
    (cu_id tenant1).
Proof.
  pose proof (complete_then_submit world_listed (tenant1_profile false) flat_request
                tenant1 (registered_tenant "tenant-1") flat) as H.
  cbv zeta in H. destruct H as (profile & score & _ & _ & _ & _ & _ & Hg & _).
  - vm_compute; reflexivity.
  - vm_compute; reflexivity.
  - vm_compute; reflexivity.
  - apply no_applications_listed.
  - exact Hg.
Defined.

Lemma gate_agrees_always_witness :
  gate_agrees (db (foldl after_call world_start tenant1_calls)).
Proof.
  apply gate_agrees_always. intros id row.
  cbn [world_start db empty_database tenants]. rewrite lookup_empty. discriminate.
Defined.


Lemma register_without_session_witness :
  (register tenant2_signup tenant2_signed_up world_with_landlord).1
  = Raise (HTTPException 400 ("Registration failed: " +:+ no_access_token)) ∧
  users (db (register tenant2_signup tenant2_signed_up world_with_landlord).2)
    !! "tenant-2" = Some (new_user tenant2_signup).
Proof.
  destruct (register_without_session world_with_landlord tenant2_signup
              tenant2_signed_up "tenant-2") as (H1 & H2 & _);
    [vm_compute; reflexivity ..| exact (conj H1 H2)].
Defined.

Lemma registered_tenant_cannot_submit_witness :
  create_application flat_request (Identity "tenant-1" "tenant")
    (register tenant1_signup tenant1_signed_up world_start).2
  = (Raise ProfileIncomplete, (register tenant1_signup tenant1_signed_up world_start).2).
Proof.
  pose proof (registered_tenant_cannot_submit world_start tenant1_signup
                tenant1_signed_up "tenant-1" "token-1" flat_request) as H.
  cbv zeta in H.
  destruct H as (_ & _ & H & _); [vm_compute; reflexivity ..| exact H].
Defined.
